(** * Setup.ipynb: document parsing, corpus iteration and the vectorisation
      pipeline of the CORD-19 notebook

    The notebook is a linear script over external libraries (nltk, gensim,
    pandas, scikit-learn, yellowbrick, the Azure ML dataset mount).  The
    code that belongs to the notebook itself (the classes [Reader] and
    [Corpus] and the cells that use them) is embedded below function by
    function.  The routines of nltk, gensim, scikit-learn and yellowbrick
    and the storage are operations of interface classes, so that each
    statement holds for any implementation of them; the few operations of
    Python and pandas that the cells rely on are written out. *)

From Stdlib Require Import ZArith NArith Lia.
From stdpp Require Import base option list strings gmap pretty.

Open Scope Z_scope.
Set Warnings "-register-all".

(** ** Python values *)

(** A Python [str] is a sequence of Unicode code points. *)
Definition char := N.
Definition str := list char.

(** [py "abc"] is the Python literal ['abc'] (for ASCII text). *)
Definition py (s : string) : str :=
  map Ascii.N_of_ascii (String.list_ascii_of_string s).

(** The exceptions that the modelled statements can raise. *)
Inductive exn :=
  | FileNotFoundError
  | JSONDecodeError
  | KeyError
  | TypeError
  | IndexError
  | AttributeError
  | ValueError
  | NameError
  | InvalidIndexError
  | OtherError (code : N).

#[global] Instance exn_eq_dec : EqDecision exn.
Proof. solve_decision. Defined.

(** The outcome of evaluating an expression: a value or a raised exception. *)
Inductive Res (A : Type) :=
  | Ok (a : A)
  | Raise (e : exn).
Arguments Ok {A} a.
Arguments Raise {A} e.

Definition res_bind {A B} (r : Res A) (k : A -> Res B) : Res B :=
  match r with
  | Ok a => k a
  | Raise e => Raise e
  end.

(** A float is kept as its IEEE-754 bit pattern: the notebook never does
    arithmetic on the vectors it moves around. *)
Definition float := N.

(** A scalar held in a pandas cell or used as a row or column label. *)
Inductive cell :=
  | CStr (s : str)
  | CInt (z : Z)
  | CFloat (x : float)
  | CNaN.

#[global] Instance cell_eq_dec : EqDecision cell.
Proof. solve_decision. Defined.

(** What [json.load] returns.  A [JObj] is a Python dict in insertion order
    (its keys are distinct); a number keeps its literal. *)
Inductive json :=
  | JNull
  | JBool (b : bool)
  | JNum (lit : str)
  | JStr (s : str)
  | JArr (items : list json)
  | JObj (members : list (str * json)).

(** ** Builtins of Python used by the notebook *)
Module Py.

(** [string.punctuation]: the 32 ASCII punctuation marks, in ASCII order:
    33-47, 58-64, 91-96 and 123-126. *)
Definition punctuation : str :=
  [33; 34; 35; 36; 37; 38; 39; 40; 41; 42; 43; 44; 45; 46; 47;
   58; 59; 60; 61; 62; 63; 64;
   91; 92; 93; 94; 95; 96;
   123; 124; 125; 126]%N.

(** [list(s)]: the characters of [s], each as a one-character string. *)
Definition list_of_str (s : str) : list str := map (fun c => [c]) s.

Definition is_ascii_letter (c : char) : bool :=
  ((65 <=? c) && (c <=? 90) || (97 <=? c) && (c <=? 122))%N.

(** The Unicode character database, as far as [str.isalpha] and
    [str.lower] consult it outside ASCII. *)
Class Unicode := {
  unicode_letter : char -> bool;
  lower : str -> str
}.

Section Str.
Context `{Unicode}.

(** A character is alphabetic when its general category is a letter
    category; in ASCII these are exactly A-Z and a-z. *)
Definition alphabetic (c : char) : bool :=
  if (c <? 128)%N then is_ascii_letter c else unicode_letter c.

(** [w.isalpha()]: at least one character, all of them alphabetic. *)
Definition isalpha (w : str) : bool :=
  match w with
  | [] => false
  | _ => forallb alphabetic w
  end.
End Str.

Fixpoint startswith (s p : str) : bool :=
  match p, s with
  | [], _ => true
  | a :: p', b :: s' => (a =? b)%N && startswith s' p'
  | _ :: _, [] => false
  end.

(** The scan behind [s.split(sep)], [sep] not empty: [skip] counts the
    characters of a matched separator still to pass over, [cur] holds the
    current piece in reverse. *)
Fixpoint split_scan (sep : str) (skip : nat) (cur : str) (s : str) : list str :=
  match s with
  | [] => [rev cur]
  | c :: s' =>
      match skip with
      | S k => split_scan sep k cur s'
      | O =>
          if startswith s sep
          then rev cur :: split_scan sep (length sep - 1) [] s'
          else split_scan sep 0 (c :: cur) s'
      end
  end.

Definition split (s sep : str) : list str := split_scan sep 0 [] s.

(** [range(lo, hi)] *)
Definition range (lo hi : Z) : list Z :=
  map (fun k => lo + Z.of_nat k) (seq 0 (Z.to_nat (hi - lo))).

(** [str(n)] for an int: its decimal numeral. *)
Definition str_of_int (n : Z) : str := py (pretty n).

(** [x in l] for a list of strings. *)
Definition contains (l : list str) (x : str) : bool :=
  bool_decide (x ∈ l).

(** [v[key]] for a string key on a value that came from JSON. *)
Fixpoint dict_get (members : list (str * json)) (key : str) : option json :=
  match members with
  | [] => None
  | (k, v) :: rest => if decide (k = key) then Some v else dict_get rest key
  end.

Definition getitem (v : json) (key : str) : Res json :=
  match v with
  | JObj members =>
      match dict_get members key with
      | Some x => Ok x
      | None => Raise KeyError
      end
  | _ => Raise TypeError
  end.

(** [for x in v]: the elements of a list, the characters of a string, the
    keys of a dict; anything else is not iterable. *)
Definition iterate (v : json) : Res (list json) :=
  match v with
  | JArr items => Ok items
  | JStr s => Ok (map (fun c => JStr [c]) s)
  | JObj members => Ok (map (fun kv => JStr (fst kv)) members)
  | _ => Raise TypeError
  end.

End Py.

(** ** pandas: the operations on tables that the notebook calls *)
Module Pandas.

(** A DataFrame: column labels, and one labelled row per entry with one
    cell per column. *)
Record Frame := {
  columns : list cell;
  rows : list (cell * list cell)
}.

Definition index (df : Frame) : list cell := map fst (rows df).

(** A row taken out of a frame: its cells under the column labels. *)
Record Series := {
  name : cell;
  labels : list cell;
  values : list cell
}.

(** Position of the first occurrence of a label. *)
Fixpoint position (key : cell) (l : list cell) : option nat :=
  match l with
  | [] => None
  | x :: rest => if decide (x = key) then Some O else S <$> position key rest
  end.

(** [df.iloc[i]]: a negative position counts from the end, a position
    outside the frame raises IndexError. *)
Definition iloc (df : Frame) (i : Z) : Res Series :=
  let n := Z.of_nat (length (rows df)) in
  let j := if i <? 0 then i + n else i in
  if (0 <=? j) && (j <? n) then
    match rows df !! Z.to_nat j with
    | Some (l, vs) => Ok {| name := l; labels := columns df; values := vs |}
    | None => Raise IndexError
    end
  else Raise IndexError.

(** [series[key]] *)
Definition series_getitem (s : Series) (key : cell) : Res cell :=
  match position key (labels s) with
  | Some p =>
      match values s !! p with
      | Some v => Ok v
      | None => Raise KeyError
      end
  | None => Raise KeyError
  end.

(** [df.iloc[:n]] *)
Definition iloc_to (df : Frame) (n : Z) : Frame :=
  let len := Z.of_nat (length (rows df)) in
  let stop := if n <? 0 then len + n else n in
  {| columns := columns df; rows := take (Z.to_nat stop) (rows df) |}.

(** [df.set_index(key)]: the column becomes the row labels and leaves the
    columns. *)
Definition set_index (df : Frame) (key : cell) : Res Frame :=
  match position key (columns df) with
  | Some p =>
      Ok {| columns := delete p (columns df);
            rows := map (fun r => (default CNaN (snd r !! p), delete p (snd r)))
                        (rows df) |}
  | None => Raise KeyError
  end.

Definition pad (w : nat) (vs : list cell) : list cell :=
  vs ++ replicate (w - length vs) CNaN.

(** The length of the longest array. *)
Definition width (data : list (list float)) : nat :=
  foldr (fun v m => Nat.max (length v) m) O data.

(** [pd.DataFrame(data, index=ids)] for a list of numeric arrays: columns
    0, 1, ..., one row per array, labelled by [ids].  When the number of
    labels is not the number of arrays, no data gives the labels without
    columns, a single array is repeated under every label, and anything
    else is a ValueError. *)
Definition DataFrame (data : list (list float)) (ids : list cell) : Res Frame :=
  if decide (length data = length ids) then
    let w := width data in
    Ok {| columns := map (fun j => CInt (Z.of_nat j)) (seq 0 w);
          rows := zip_with (fun l v => (l, pad w (map CFloat v))) ids data |}
  else
    match data with
    | [] => Ok {| columns := []; rows := map (fun l => (l, [])) ids |}
    | [v] =>
        Ok {| columns := map (fun j => CInt (Z.of_nat j)) (seq 0 (length v));
              rows := map (fun l => (l, map CFloat v)) ids |}
    | _ => Raise ValueError
    end.

Definition row_of (df : Frame) (l : cell) : list cell :=
  match list_find (fun r => fst r = l) (rows df) with
  | Some (_, r) => snd r
  | None => replicate (length (columns df)) CNaN
  end.

(** [pd.concat([a, b], axis=1)]: frames whose row labels are the same
    sequence are put side by side row by row; otherwise the rows are
    aligned on the union of the labels (in order of appearance, missing
    cells NaN), which pandas refuses when a label is repeated. *)
Definition concat_axis1 (a b : Frame) : Res Frame :=
  if decide (index a = index b) then
    Ok {| columns := columns a ++ columns b;
          rows := zip_with (fun ra rb => (fst ra, snd ra ++ snd rb)) (rows a) (rows b) |}
  else if decide (NoDup (index a) /\ NoDup (index b)) then
    let labels := index a ++ filter (fun l => l ∉ index a) (index b) in
    Ok {| columns := columns a ++ columns b;
          rows := map (fun l => (l, row_of a l ++ row_of b l)) labels |}
  else Raise InvalidIndexError.

(** [df[key] = values]: the column is replaced where it is, or added as the
    last one; the values must be one per row. *)
Definition setitem (df : Frame) (key : cell) (vals : list cell) : Res Frame :=
  if decide (length vals = length (rows df)) then
    match position key (columns df) with
    | Some p =>
        Ok {| columns := columns df;
              rows := zip_with (fun r v => (fst r, <[p := v]> (snd r))) (rows df) vals |}
    | None =>
        Ok {| columns := columns df ++ [key];
              rows := zip_with (fun r v => (fst r, snd r ++ [v])) (rows df) vals |}
    end
  else Raise ValueError.

(** The cell of a row under a column label. *)
Definition cell_at (df : Frame) (i : nat) (key : cell) : option cell :=
  match rows df !! i, position key (columns df) with
  | Some r, Some p => snd r !! p
  | _, _ => None
  end.

End Pandas.

(** ** Effects: the world outside the notebook and a log of what was done *)

(** What the notebook asked of the outside world, in order. *)
Inductive event :=
  | EvOpen (path : str)
  | EvMountStart
  | EvExists (path : str)
  | EvLoad (path : str)
  | EvTrain (n_documents vector_size batch_words : Z)
  | EvSave (path : str)
  | EvInfer (words : list str)
  | EvElbow (lo hi : Z)
  | EvKMeans (n_clusters : Z).

#[global] Instance event_eq_dec : EqDecision event.
Proof. solve_decision. Defined.

Section Effects.
Context {W : Type}.

(** [world] is everything outside the notebook (storage, the mount, the
    state of the libraries); [log] records the requests made so far. *)
Record State := {
  world : W;
  log : list event
}.

Definition M (A : Type) : Type := State -> Res A * State.

Definition ret {A} (a : A) : M A := fun st => (Ok a, st).

Definition raise {A} (e : exn) : M A := fun st => (Raise e, st).

Definition bind {A B} (m : M A) (k : A -> M B) : M B :=
  fun st =>
    match m st with
    | (Ok a, st') => k a st'
    | (Raise e, st') => (Raise e, st')
    end.

Definition lift {A} (r : Res A) : M A := fun st => (r, st).

(** [try: body except e: handler]: only [e] is caught; what [body] did to
    the world before raising stays done. *)
Definition try_except {A} (body : M A) (e : exn) (handler : M A) : M A :=
  fun st =>
    match body st with
    | (Ok a, st') => (Ok a, st')
    | (Raise e', st') =>
        if decide (e' = e) then handler st' else (Raise e', st')
    end.

(** Run a computation for its effect on the world only, outside the log:
    how a library routine runs a callback it was given. *)
Definition run_quiet {A} (m : M A) (w : W) : Res A * W :=
  let '(r, st) := m {| world := w; log := [] |} in (r, world st).

(** A request to the outside world, entered in the log. *)
Definition request {A} (ev : event) (op : W -> Res A * W) : M A :=
  fun st =>
    let '(r, w') := op (world st) in
    (r, {| world := w'; log := log st ++ [ev] |}).

End Effects.
Arguments State W : clear implicits.
Arguments M W A : clear implicits.

Notation "'let!' x ':=' c 'in' k" := (bind c (fun x => k))
  (at level 10, x pattern, c at level 100, k at level 200).

(** [for x in l: acc = body(x, acc)] *)
Fixpoint for_each {W A B} (body : A -> B -> M W B) (l : list A) (acc : B) : M W B :=
  match l with
  | [] => ret acc
  | x :: rest => let! acc' := body x acc in for_each body rest acc'
  end.

(** ** The libraries, as interfaces *)

(** nltk: the English stop-word list, the Punkt sentence splitter, the word
    tokenizer and [SnowballStemmer('english').stem]. *)
Class Nltk := {
  english_stopwords : list str;
  sent_tokenize : str -> list str;
  word_tokenize : str -> list str;
  stem : str -> str
}.

(** The mounted dataset and the local file system.  [open_and_load] is
    [with open(path, 'r') as f: json.load(f)]. *)
Class Storage (W : Type) := {
  open_and_load : str -> W -> Res json * W;
  mount_start : W -> Res unit * W;
  os_path_exists : str -> W -> bool
}.

(** The module-level variables that the classes of the notebook read. *)
Class Globals := {
  metadata_with_docs : Pandas.Frame;
  covid_dirpath : str
}.

(** What a [tags] field can hold: one label, or a list of labels. *)
Inductive tags_value :=
  | Scalar (c : cell)
  | ListOf (l : list cell).

(** gensim's named tuple [TaggedDocument(words, tags)]. *)
Record TaggedDocument := {
  words : list str;
  tags : tags_value
}.

(** A suspended [for document_index in range(0, n)] loop: the indices that
    are still to come. *)
Record Generator := {
  pending : list Z
}.

(** [Corpus(n_documents)]; its [stemmer] and [reader] carry no state. *)
Record Corpus := {
  n_documents : Z
}.

Section Notebook.
Context {W : Type} `{Py.Unicode} `{Nltk} `{Storage W} `{Globals}.

Definition stop_tokens : list str :=
  english_stopwords ++ Py.list_of_str Py.punctuation ++ [py "et"; py "al."].

Definition open_json (filepath : str) : M W json :=
  request (EvOpen filepath) (open_and_load filepath).

Definition mount_restart : M W unit :=
  request EvMountStart mount_start.

(** *** Reader *)

Definition read_file_to_json (filepath : str) : M W json :=
  try_except (open_json filepath) FileNotFoundError
    (let! _ := mount_restart in open_json filepath).

(** The condition of the comprehension:
    [word.isalpha() and word.lower() not in stop_tokens]. *)
Definition keep (word : str) : bool :=
  Py.isalpha word && negb (Py.contains stop_tokens (Py.lower word)).

(** [[stem(word) for word in word_tokenize(p_sentence) if keep(word)]] *)
Definition sentence (p_sentence : str) : list str :=
  map stem (List.filter keep (word_tokenize p_sentence)).

(** [sent_tokenize(x)] on a value from JSON: only a string is accepted. *)
Definition sent_tokenize_value (v : json) : Res (list str) :=
  match v with
  | JStr s => Ok (sent_tokenize s)
  | _ => Raise TypeError
  end.

(** [x.split(sep)] on a cell: only a string has the method. *)
Definition cell_split (c : cell) (sep : str) : Res (list str) :=
  match c with
  | CStr s => Ok (Py.split s sep)
  | _ => Raise AttributeError
  end.

(** Body of [for paragraph in text]. *)
Definition parse_paragraph (paragraph : json) (words : list str) : M W (list str) :=
  let! ptext := lift (Py.getitem paragraph (py "text")) in
  let! p_sentences := lift (sent_tokenize_value ptext) in
  for_each (fun p_sentence words => ret (words ++ sentence p_sentence))
    p_sentences words.

(** Body of [for filename in document['pdf_json_files'].split('; ')]. *)
Definition parse_file (filename : str) (words : list str) : M W (list str) :=
  let filepath := covid_dirpath ++ py "/" ++ filename in
  let! data := read_file_to_json filepath in
  let! text := lift (Py.getitem data (py "body_text")) in
  let! paragraphs := lift (Py.iterate text) in
  for_each parse_paragraph paragraphs words.

Definition parse_document (document_index : Z) : M W (list str * cell) :=
  let! document := lift (Pandas.iloc metadata_with_docs document_index) in
  let! files := lift (Pandas.series_getitem document (CStr (py "pdf_json_files"))) in
  let! filenames := lift (cell_split files (py "; ")) in
  let! words := for_each parse_file filenames [] in
  let! cord_uid := lift (Pandas.series_getitem document (CStr (py "cord_uid"))) in
  ret (words, cord_uid).

(** *** Corpus *)

(** Calling [__iter__] or [plain_iter] creates the generator; nothing runs
    until the first [next]. *)
Definition generator_of (c : Corpus) : Generator :=
  {| pending := Py.range 0 (n_documents c) |}.

(** One [next] on the generator of [Corpus.__iter__]: [None] is
    StopIteration. *)
Definition iter_next (g : Generator) : M W (option TaggedDocument * Generator) :=
  match pending g with
  | [] => ret (None, g)
  | document_index :: rest =>
      let! (words, document_id) := parse_document document_index in
      ret (Some {| words := words; tags := Scalar document_id |},
           {| pending := rest |})
  end.

(** One [next] on the generator of [Corpus.plain_iter]. *)
Definition plain_iter_next (g : Generator) : M W (option (list str * cell) * Generator) :=
  match pending g with
  | [] => ret (None, g)
  | document_index :: rest =>
      let! (words, document_id) := parse_document document_index in
      ret (Some (words, document_id), {| pending := rest |})
  end.

(** [for x in g: acc = body(x, acc)], [fuel] bounding the calls of [next]. *)
Fixpoint for_in {A B} (next : Generator -> M W (option A * Generator))
    (body : A -> B -> M W B) (fuel : nat) (g : Generator) (acc : B) : M W B :=
  match fuel with
  | O => raise (OtherError 0)
  | S fuel' =>
      let! (item, g') := next g in
      match item with
      | None => ret acc
      | Some x => let! acc' := body x acc in for_in next body fuel' g' acc'
      end
  end.

(** The loop needs one [next] per pending index and one more to see
    StopIteration. *)
Definition for_loop {A B} (next : Generator -> M W (option A * Generator))
    (body : A -> B -> M W B) (g : Generator) (acc : B) : M W B :=
  for_in next body (S (length (pending g))) g acc.

(** One full pass over a generator, collecting what it yields. *)
Definition collect {A} (next : Generator -> M W (option A * Generator))
    (g : Generator) : M W (list A) :=
  for_loop next (fun x acc => ret (acc ++ [x])) g [].

(** What a pass over a generator yields, and how the pass ends: [Ok] on
    StopIteration, or the exception that broke it off. *)
Fixpoint run_pass {A} (next : Generator -> M W (option A * Generator))
    (fuel : nat) (g : Generator) (st : State W) : list A * Res unit * State W :=
  match fuel with
  | O => ([], Raise (OtherError 0), st)
  | S fuel' =>
      match next g st with
      | (Ok (Some x, g'), st') =>
          let '(xs, r, st'') := run_pass next fuel' g' st' in (x :: xs, r, st'')
      | (Ok (None, _), st') => ([], Ok (), st')
      | (Raise e, st') => ([], Raise e, st')
      end
  end.

Definition yielded {A} (next : Generator -> M W (option A * Generator))
    (g : Generator) (st : State W) : list A * Res unit * State W :=
  run_pass next (S (length (pending g))) g st.

End Notebook.

(** gensim's Doc2Vec.  [Doc2Vec_init documents vector_size batch_words] is
    the constructor called with an iterable: it trains, running passes over
    [documents] as it sees fit. *)
Class Gensim (W Model : Type) := {
  Doc2Vec_load : str -> W -> Res Model * W;
  Doc2Vec_init :
    (W -> Res (list TaggedDocument) * W) -> Z -> Z -> W -> Res Model * W;
  Doc2Vec_save : Model -> str -> W -> Res unit * W;
  infer_vector : Model -> list str -> W -> Res (list float) * W
}.

(** yellowbrick and scikit-learn.  [KElbowVisualizer_fit (lo, hi) X] is
    [KElbowVisualizer(KMeans(), k=(lo, hi)).fit(X)] followed by reading
    [elbow_value_], which is None when no elbow was found; [KMeans_fit k X]
    is [KMeans(k).fit(X).labels_]. *)
Class Sklearn (W : Type) := {
  KElbowVisualizer_fit : Z * Z -> Pandas.Frame -> W -> Res (option Z) * W;
  KMeans_fit : Z -> Pandas.Frame -> W -> Res (list Z) * W
}.

Section Pipeline.
Context {W Model : Type}
  `{Py.Unicode} `{Nltk} `{Storage W} `{Globals} `{Gensim W Model} `{Sklearn W}.

(** *** The embedding model: load it or train it *)

(** [f'covid_embeddings_model_{N_DOCUMENTS}_docs.w2v'] *)
Definition model_filename (N_DOCUMENTS : Z) : str :=
  py "covid_embeddings_model_" ++ Py.str_of_int N_DOCUMENTS ++ py "_docs.w2v".

(** [Doc2Vec(corpus, vector_size=..., batch_words=...)]: each pass of the
    trainer over the corpus is a full run of [Corpus.__iter__]. *)
Definition Doc2Vec (corpus : Corpus) (vector_size batch_words : Z) : M W Model :=
  request (EvTrain (n_documents corpus) vector_size batch_words)
    (Doc2Vec_init (run_quiet (collect iter_next (generator_of corpus)))
       vector_size batch_words).

(** The cell that sets [model]; the two [print] calls are left out. *)
Definition load_or_train (N_DOCUMENTS : Z) : M W Model :=
  let model_filename := model_filename N_DOCUMENTS in
  let! found := request (EvExists model_filename)
                  (fun w => (Ok (os_path_exists model_filename w), w)) in
  if (found : bool) then
    request (EvLoad model_filename) (Doc2Vec_load model_filename)
  else
    let! model := Doc2Vec {| n_documents := N_DOCUMENTS |} 128 10 in
    let! _ := request (EvSave model_filename) (Doc2Vec_save model model_filename) in
    ret model.

(** *** The inference pass *)

(** Body of [for (words, doc_id) in Corpus(N_DOCUMENTS).plain_iter()];
    the progress [print] is left out. *)
Definition infer_step (model : Model) (item : list str * cell)
    (acc : list (list float) * list cell) : M W (list (list float) * list cell) :=
  let '(words, doc_id) := item in
  let '(word_vectors, ids) := acc in
  let ids := ids ++ [doc_id] in
  let! word_vector := request (EvInfer words) (infer_vector model words) in
  ret (word_vectors ++ [word_vector], ids).

(** The cell that fills [word_vectors] and [ids], both empty at first. *)
Definition infer_all (model : Model) (N_DOCUMENTS : Z)
    : M W (list (list float) * list cell) :=
  for_loop plain_iter_next (infer_step model)
    (generator_of {| n_documents := N_DOCUMENTS |}) ([], []).

(** [wv_df = pd.DataFrame(word_vectors, index=ids)] *)
Definition make_wv_df (word_vectors : list (list float)) (ids : list cell)
    : Res Pandas.Frame :=
  Pandas.DataFrame word_vectors ids.

(** [indexed_metadata = metadata_with_docs.set_index('cord_uid')]
    [metadata_with_embeddings =
       pd.concat([indexed_metadata.iloc[:N_DOCUMENTS], wv_df], axis=1)] *)
Definition merge_embeddings (N_DOCUMENTS : Z) (wv_df : Pandas.Frame)
    : Res Pandas.Frame :=
  res_bind (Pandas.set_index metadata_with_docs (CStr (py "cord_uid")))
    (fun indexed_metadata =>
       Pandas.concat_axis1 (Pandas.iloc_to indexed_metadata N_DOCUMENTS) wv_df).

(** *** Clustering *)

(** [12 if elbow_value_ > 12 else elbow_value_]; comparing None with an
    int is a TypeError. *)
Definition capped (elbow_value_ : option Z) : Res Z :=
  match elbow_value_ with
  | Some e => Ok (if e >? 12 then 12 else e)
  | None => Raise TypeError
  end.

(** The cell that sets [clusters]. *)
Definition cluster_documents (wv_df : Pandas.Frame) : M W (list Z) :=
  let! elbow_value_ := request (EvElbow 3 20) (KElbowVisualizer_fit (3, 20) wv_df) in
  let! n_clusters := lift (capped elbow_value_) in
  request (EvKMeans n_clusters) (KMeans_fit n_clusters wv_df).

(** [v] is what some call of [model.infer_vector] returned for the words
    of [item]. *)
Definition inferred (model : Model) (item : list str * cell) (v : list float) : Prop :=
  exists w w' : W, infer_vector model (fst item) w = (Ok v, w').

End Pipeline.

(** ** Names and objects: the cell that attaches the cluster labels *)
Module Namespace.

Definition loc := positive.

(** The notebook's variables name objects; the frames live in the heap. *)
Record Store := {
  vars : gmap string loc;
  heap : gmap loc Pandas.Frame
}.

(** [target = source]: the target names the object the source names. *)
Definition assign (target source : string) (s : Store) : Res Store :=
  match vars s !! source with
  | Some l => Ok {| vars := <[target := l]> (vars s); heap := heap s |}
  | None => Raise NameError
  end.

(** [target[key] = vals]: the object named by the target is updated where
    it is. *)
Definition setitem (target : string) (key : cell) (vals : list cell) (s : Store)
    : Res Store :=
  match vars s !! target with
  | Some l =>
      match heap s !! l with
      | Some df =>
          res_bind (Pandas.setitem df key vals)
            (fun df' => Ok {| vars := vars s; heap := <[l := df']> (heap s) |})
      | None => Raise NameError
      end
  | None => Raise NameError
  end.

(** [name], read. *)
Definition read (name : string) (s : Store) : option Pandas.Frame :=
  l ← vars s !! name; heap s !! l.

(** [metadata_with_clusters = metadata_with_embeddings]
    [metadata_with_clusters['cluster'] = clusters] *)
Definition attach_clusters (clusters : list Z) (s : Store) : Res Store :=
  res_bind (assign "metadata_with_clusters" "metadata_with_embeddings" s)
    (fun s1 => setitem "metadata_with_clusters" (CStr (py "cluster"))
                 (map CInt clusters) s1).

End Namespace.

(** ** Vocabulary for the statements *)
Section Vocabulary.
Context {W : Type} `{Py.Unicode} `{Nltk} `{Storage W} `{Globals}.

(** A word made of punctuation marks only. *)
Definition punctuation_only (w : str) : bool :=
  match w with
  | [] => false
  | _ => forallb (fun c => bool_decide (c ∈ Py.punctuation)) w
  end.

(** [word] is one of the words of the body text of [data]: a token of a
    sentence of the text of one of its paragraphs. *)
Definition in_body_text (data : json) (word : str) : Prop :=
  exists text paragraphs paragraph ptext p_sentence,
    Py.getitem data (py "body_text") = Ok text
    /\ Py.iterate text = Ok paragraphs
    /\ paragraph ∈ paragraphs
    /\ Py.getitem paragraph (py "text") = Ok (JStr ptext)
    /\ p_sentence ∈ sent_tokenize ptext
    /\ word ∈ word_tokenize p_sentence.

(** The file names listed for the article at a position of the table. *)
Definition filenames_of (document_index : Z) : Res (list str) :=
  res_bind (Pandas.iloc metadata_with_docs document_index) (fun document =>
  res_bind (Pandas.series_getitem document (CStr (py "pdf_json_files"))) (fun files =>
  cell_split files (py "; "))).

(** [word] is one of the words of the body text of a file of the article,
    as read from storage. *)
Definition in_document (document_index : Z) (word : str) : Prop :=
  exists filenames filename data w0 w1,
    filenames_of document_index = Ok filenames
    /\ filename ∈ filenames
    /\ open_and_load (covid_dirpath ++ py "/" ++ filename) w0 = (Ok data, w1)
    /\ in_body_text data word.

(** A stop word: its lower-cased form is in the stop set. *)
Definition stop_word (w : str) : bool :=
  Py.contains stop_tokens (Py.lower w).

(** What a token emitted for an article is: the stem of a word of its body
    text that is alphabetic, not made of punctuation only, and not a stop
    word. *)
Definition token_of (document_index : Z) (t : str) : Prop :=
  exists word,
    in_document document_index word
    /\ Py.isalpha word = true
    /\ punctuation_only word = false
    /\ stop_word word = false
    /\ t = stem word.

(** The article id at a position of the table. *)
Definition uid_at (document_index : Z) : Res cell :=
  res_bind (Pandas.iloc metadata_with_docs document_index) (fun document =>
  Pandas.series_getitem document (CStr (py "cord_uid"))).

(** What [__iter__] wraps around a parsed document. *)
Definition tagged (item : list str * cell) : TaggedDocument :=
  {| words := fst item; tags := Scalar (snd item) |}.

(** The shape that the two generators of [Corpus] share: parse the next
    pending document and yield it, wrapped. *)
Definition gen_next {A} (wrap : list str * cell -> A) (g : Generator)
    : M W (option A * Generator) :=
  match pending g with
  | [] => ret (None, g)
  | document_index :: rest =>
      let! item := parse_document document_index in
      ret (Some (wrap item), {| pending := rest |})
  end.

(** [item] is what some run of [parse_document] returned for the index. *)
Definition parsed (document_index : Z) (item : list str * cell) : Prop :=
  exists st st' : State W, parse_document document_index st = (Ok item, st').

(** The requests to open the files of an article. *)
Definition opens_of (document_index : Z) (ev : event) : Prop :=
  exists filenames filename,
    filenames_of document_index = Ok filenames
    /\ filename ∈ filenames
    /\ ev = EvOpen (covid_dirpath ++ py "/" ++ filename).

End Vocabulary.

(** A frame is well formed when every row has one cell per column. *)
Definition well_formed (df : Pandas.Frame) : Prop :=
  Forall (fun r => length (snd r) = length (Pandas.columns df)) (Pandas.rows df).

(** ** A small concrete world, used to run the definitions *)
Module Demo.

Definition ascii_lower (c : char) : char :=
  if ((65 <=? c) && (c <=? 90))%N then (c + 32)%N else c.

#[export] Instance unicode : Py.Unicode := {|
  Py.unicode_letter := fun _ => false;
  Py.lower := map ascii_lower
|}.

(** The English list shipped with nltk. *)
Definition nltk_english : list str := map py
  ["i"; "me"; "my"; "myself"; "we"; "our"; "ours"; "ourselves"; "you";
   "you're"; "you've"; "you'll"; "you'd"; "your"; "yours"; "yourself";
   "yourselves"; "he"; "him"; "his"; "himself"; "she"; "she's"; "her";
   "hers"; "herself"; "it"; "it's"; "its"; "itself"; "they"; "them";
   "their"; "theirs"; "themselves"; "what"; "which"; "who"; "whom"; "this";
   "that"; "that'll"; "these"; "those"; "am"; "is"; "are"; "was"; "were";
   "be"; "been"; "being"; "have"; "has"; "had"; "having"; "do"; "does";
   "did"; "doing"; "a"; "an"; "the"; "and"; "but"; "if"; "or"; "because";
   "as"; "until"; "while"; "of"; "at"; "by"; "for"; "with"; "about";
   "against"; "between"; "into"; "through"; "during"; "before"; "after";
   "above"; "below"; "to"; "from"; "up"; "down"; "in"; "out"; "on"; "off";
   "over"; "under"; "again"; "further"; "then"; "once"; "here"; "there";
   "when"; "where"; "why"; "how"; "all"; "any"; "both"; "each"; "few";
   "more"; "most"; "other"; "some"; "such"; "no"; "nor"; "not"; "only";
   "own"; "same"; "so"; "than"; "too"; "very"; "s"; "t"; "can"; "will";
   "just"; "don"; "don't"; "should"; "should've"; "now"; "d"; "ll"; "m";
   "o"; "re"; "ve"; "y"; "ain"; "aren"; "aren't"; "couldn"; "couldn't";
   "didn"; "didn't"; "doesn"; "doesn't"; "hadn"; "hadn't"; "hasn";
   "hasn't"; "haven"; "haven't"; "isn"; "isn't"; "ma"; "mightn";
   "mightn't"; "mustn"; "mustn't"; "needn"; "needn't"; "shan"; "shan't";
   "shouldn"; "shouldn't"; "wasn"; "wasn't"; "weren"; "weren't"; "won";
   "won't"; "wouldn"; "wouldn't"]%string.

Definition is_vowel (c : char) : bool :=
  bool_decide (c ∈ py "aeiouy").

(** The Snowball English stemmer on the words used below ("others",
    "spreads", "spread", "virus", "topic"): the word is lower-cased, and
    step 1a deletes a final s, other than in ss and us, when a vowel
    occurs before the letter next to it; no other step applies to them. *)
Definition snowball_step_1a (word : str) : str :=
  let w := map ascii_lower word in
  match rev w with
  | last :: before :: front =>
      if (last =? 115)%N
         && negb (before =? 115)%N && negb (before =? 117)%N
         && existsb is_vowel front
      then rev (before :: front)
      else w
  | _ => w
  end.

(** A text of one sentence is its own only sentence. *)
Definition one_sentence (text : str) : list str :=
  match text with
  | [] => []
  | _ => [text]
  end.

(** Plain words separated by single spaces are tokenized at the spaces. *)
Definition words_at_spaces (text : str) : list str :=
  List.filter (fun w => negb (bool_decide (w = []))) (Py.split text (py " ")).

#[export] Instance nltk : Nltk := {|
  english_stopwords := nltk_english;
  sent_tokenize := one_sentence;
  word_tokenize := words_at_spaces;
  stem := snowball_step_1a
|}.

(** Storage: the dataset is visible only while it is mounted. *)
Record World := {
  mounted : bool;
  dataset : list (str * json);
  local_files : list str
}.

Fixpoint find_file (path : str) (files : list (str * json)) : option json :=
  match files with
  | [] => None
  | (p, v) :: rest => if decide (p = path) then Some v else find_file path rest
  end.

#[export] Instance storage : Storage World := {|
  open_and_load := fun path w =>
    if mounted w then
      match find_file path (dataset w) with
      | Some v => (Ok v, w)
      | None => (Raise FileNotFoundError, w)
      end
    else (Raise FileNotFoundError, w);
  mount_start := fun w =>
    (Ok (), {| mounted := true; dataset := dataset w; local_files := local_files w |});
  os_path_exists := fun path w => bool_decide (path ∈ local_files w)
|}.

Definition body (paragraphs : list string) : json :=
  JObj [(py "paper_id", JStr (py "x"));
        (py "body_text",
         JArr (map (fun t => JObj [(py "text", JStr (py t))]) paragraphs))].

(** Three articles with full text; the second has two files. *)
#[export] Instance globals : Globals := {|
  metadata_with_docs := {|
    Pandas.columns := [CStr (py "cord_uid"); CStr (py "title"); CStr (py "pdf_json_files")];
    Pandas.rows :=
      [(CInt 0, [CStr (py "ug7v899j"); CStr (py "Paper A"); CStr (py "a.json")]);
       (CInt 2, [CStr (py "02tnwd4m"); CStr (py "Paper B"); CStr (py "b1.json; b2.json")]);
       (CInt 5, [CStr (py "ejv2xln0"); CStr (py "Paper C"); CStr (py "c.json")])]
  |};
  covid_dirpath := py "/mnt/covid19temp"
|}.

Definition files : list (str * json) :=
  [(py "/mnt/covid19temp/a.json", body ["the virus spreads"]);
   (py "/mnt/covid19temp/b1.json", body ["spread of the virus"]);
   (py "/mnt/covid19temp/b2.json", body ["Others spread it"; "the topic"]);
   (py "/mnt/covid19temp/c.json", body ["topic"])]%string.

Definition start (is_mounted : bool) : State World :=
  {| world := {| mounted := is_mounted; dataset := files; local_files := [] |};
     log := [] |}.

(** A stand-in for Doc2Vec: a model is its vector size, training runs one
    pass over the corpus, and inference returns a vector of that size. *)
#[export] Instance gensim : Gensim World Z := {|
  Doc2Vec_load := fun path w =>
    if bool_decide (path ∈ local_files w) then (Ok 128, w)
    else (Raise FileNotFoundError, w);
  Doc2Vec_init := fun documents vector_size batch_words w =>
    match documents w with
    | (Ok _, w') => (Ok vector_size, w')
    | (Raise e, w') => (Raise e, w')
    end;
  Doc2Vec_save := fun model path w =>
    (Ok (), {| mounted := mounted w; dataset := dataset w;
               local_files := path :: local_files w |});
  infer_vector := fun model words w =>
    (Ok (replicate (Z.to_nat model) (N.of_nat (length words))), w)
|}.

(** A stand-in for the clustering: the elbow is the largest candidate, and
    row i gets the label i mod k. *)
#[export] Instance sklearn : Sklearn World := {|
  KElbowVisualizer_fit := fun k X w => (Ok (Some (snd k - 1)), w);
  KMeans_fit := fun k X w =>
    if (0 <? k) && (k <=? Z.of_nat (length (Pandas.rows X))) then
      (Ok (map (fun i => Z.of_nat i mod k) (seq 0 (length (Pandas.rows X)))), w)
    else (Raise ValueError, w)
|}.

(** The state of a session in which the model file is already there. *)
Definition start_with_model (N_DOCUMENTS : Z) : State World :=
  {| world := {| mounted := true; dataset := files;
                 local_files := [model_filename N_DOCUMENTS] |};
     log := [] |}.

(** Twenty document vectors of size one. *)
Definition twenty_vectors : Pandas.Frame :=
  {| Pandas.columns := [CInt 0];
     Pandas.rows := map (fun i => (CInt (Z.of_nat i), [CFloat (N.of_nat i)])) (seq 0 20) |}.

(** A namespace in which [metadata_with_embeddings] names a frame of two
    rows. *)
Definition two_rows : Pandas.Frame :=
  {| Pandas.columns := [CStr (py "title"); CInt 0];
     Pandas.rows := [(CStr (py "ug7v899j"), [CStr (py "Paper A"); CFloat 7%N]);
                     (CStr (py "02tnwd4m"), [CStr (py "Paper B"); CFloat 9%N])] |}.

Definition store : Namespace.Store :=
  {| Namespace.vars := {[ "metadata_with_embeddings" := 1%positive ]};
     Namespace.heap := {[ 1%positive := two_rows ]} |}.

End Demo.

(** ** More of the notebook *)

(** [sep.join(pieces)] *)
Fixpoint str_join (sep : str) (pieces : list str) : str :=
  match pieces with
  | [] => []
  | x :: rest =>
      match rest with
      | [] => x
      | _ => x ++ sep ++ str_join sep rest
      end
  end.

(** The separator occurs nowhere in the string. *)
Definition free_of (sep s : str) : Prop :=
  forall k : nat, Py.startswith (drop k s) sep = false.

(** [os.path.join(a, b)] on a POSIX system: an absolute [b] replaces [a];
    otherwise the two are joined by one slash, unless [a] is empty or ends
    with one. *)
Definition os_path_join (a b : str) : str :=
  if Py.startswith b (py "/") then b
  else if bool_decide (a = []) || Py.startswith (rev a) (py "/") then a ++ b
  else a ++ py "/" ++ b.

Module Frames.

(** [c] is NaN: what [isna()] answers for one cell. *)
Definition isna (c : cell) : bool :=
  match c with
  | CNaN => true
  | _ => false
  end.

(** [df[key]]: the cells of a column, one per row. *)
Definition column (df : Pandas.Frame) (key : cell) : Res (list cell) :=
  match Pandas.position key (Pandas.columns df) with
  | Some p => Ok (map (fun r => default CNaN (snd r !! p)) (Pandas.rows df))
  | None => Raise KeyError
  end.

(** [df[mask]] for a boolean mask with one entry per row: the rows whose
    entry is True, with their labels, in their order. *)
Definition select (df : Pandas.Frame) (mask : list bool) : Pandas.Frame :=
  {| Pandas.columns := Pandas.columns df;
     Pandas.rows := map fst (List.filter snd (zip (Pandas.rows df) mask)) |}.

(** [metadata[metadata['pdf_json_files'].isna() == False]] *)
Definition with_docs (metadata : Pandas.Frame) : Res Pandas.Frame :=
  res_bind (column metadata (CStr (py "pdf_json_files"))) (fun files =>
    Ok (select metadata (map (fun c => Bool.eqb (isna c) false) files))).

(** The cells of a row that stay when the columns with a label in [labels]
    go: [cols] are the column labels, [xs] what stands under them. *)
Fixpoint keep_outside {A} (labels cols : list cell) (xs : list A) : list A :=
  match cols, xs with
  | c :: cols', x :: xs' =>
      if bool_decide (c ∈ labels) then keep_outside labels cols' xs'
      else x :: keep_outside labels cols' xs'
  | _, _ => []
  end.

(** [df.drop(labels, axis=1)]: every label must be a column, else KeyError;
    the columns with these labels leave the frame. *)
Definition drop (df : Pandas.Frame) (labels : list cell) : Res Pandas.Frame :=
  if forallb (fun l => bool_decide (l ∈ Pandas.columns df)) labels then
    Ok {| Pandas.columns := keep_outside labels (Pandas.columns df) (Pandas.columns df);
          Pandas.rows :=
            map (fun r => (fst r, keep_outside labels (Pandas.columns df) (snd r)))
              (Pandas.rows df) |}
  else Raise KeyError.

End Frames.

Definition columns_to_ignore : list cell :=
  map (fun s => CStr (py s))
    ["sha"; "source_x"; "title"; "doi"; "pmcid"; "pubmed_id"; "license";
     "abstract"; "publish_time"; "authors"; "journal"; "mag_id";
     "who_covidence_id"; "arxiv_id"; "pdf_json_files"; "pmc_json_files";
     "url"; "s2_id"]%string.

(** [train_data_vectors = train.drop(columns_to_ignore, axis=1)], and the
    same for [test]. *)
Definition data_vectors (part : Pandas.Frame) : Res Pandas.Frame :=
  Frames.drop part columns_to_ignore.

Section MoreVocabulary.
Context {W : Type} `{Py.Unicode} `{Nltk} `{Storage W} `{Globals}.

(** The cell that previews one article:
    [example_entry = metadata_with_docs.iloc[DOCUMENT_INDEX]]
    [filepath = os.path.join(covid_dirpath, example_entry['pdf_json_files'])];
    [os.path.join] accepts only strings. *)
Definition preview_filepath (DOCUMENT_INDEX : Z) : Res str :=
  res_bind (Pandas.iloc metadata_with_docs DOCUMENT_INDEX) (fun example_entry =>
  res_bind (Pandas.series_getitem example_entry (CStr (py "pdf_json_files")))
    (fun files =>
       match files with
       | CStr s => Ok (os_path_join covid_dirpath s)
       | _ => Raise TypeError
       end)).

(** The tokens of a paragraph, of a list of paragraphs and of the content of
    a file, as values: what the loops of [parse_document] add to [words]. *)
Definition paragraph_tokens (paragraph : json) : Res (list str) :=
  res_bind (Py.getitem paragraph (py "text")) (fun ptext =>
  res_bind (sent_tokenize_value ptext) (fun p_sentences =>
    Ok (concat (map sentence p_sentences)))).

Fixpoint paragraphs_tokens (paragraphs : list json) : Res (list str) :=
  match paragraphs with
  | [] => Ok []
  | paragraph :: rest =>
      res_bind (paragraph_tokens paragraph) (fun t =>
      res_bind (paragraphs_tokens rest) (fun ts => Ok (t ++ ts)))
  end.

Definition data_tokens (data : json) : Res (list str) :=
  res_bind (Py.getitem data (py "body_text")) (fun text =>
  res_bind (Py.iterate text) paragraphs_tokens).

(** [data] is what some read of the file returned. *)
Definition read_as (filename : str) (data : json) : Prop :=
  exists w0 w1 : W,
    open_and_load (covid_dirpath ++ py "/" ++ filename) w0 = (Ok data, w1).

(** A computation that, however it ends, only adds to the log, and only
    events of one kind. *)
Definition logs_only {A} (P : event -> Prop) (m : M W A) : Prop :=
  forall st : State W,
    exists evs, log (snd (m st)) = log st ++ evs /\ Forall P evs.

(** A computation whose first request, however it ends, is [ev], and whose
    further requests are all of one kind. *)
Definition asks_first {A} (ev : event) (P : event -> Prop) (m : M W A) : Prop :=
  forall st : State W,
    exists evs, log (snd (m st)) = log st ++ ev :: evs /\ Forall P evs.

(** What [parse_document] may ask of the outside world for an article. *)
Definition reader_event (document_index : Z) (ev : event) : Prop :=
  ev = EvMountStart \/ opens_of document_index ev.

End MoreVocabulary.

Definition is_infer (ev : event) : bool :=
  match ev with
  | EvInfer _ => true
  | _ => false
  end.

(** The inference requests of a log, in order. *)
Definition inference_requests (evs : list event) : list event :=
  List.filter is_infer evs.

(** ** A world in which things go wrong *)
Module Faulty.

(** Storage whose files are corrupt, except one that is missing, and whose
    mount cannot be restarted; [restarts] counts the attempts. *)
Record World := {
  restarts : nat
}.

#[export] Instance storage : Storage World := {|
  open_and_load := fun path w =>
    if bool_decide (path = py "gone.json") then (Raise FileNotFoundError, w)
    else (Raise JSONDecodeError, w);
  mount_start := fun w => (Raise (OtherError 1), {| restarts := S (restarts w) |});
  os_path_exists := fun path w => false
|}.

(** An elbow search that finds no elbow. *)
#[export] Instance sklearn : Sklearn World := {|
  KElbowVisualizer_fit := fun k X w => (Ok None, w);
  KMeans_fit := fun k X w => (Raise ValueError, w)
|}.

Definition start : State World :=
  {| world := {| restarts := 0 |}; log := [] |}.

End Faulty.

(** ** Sample tables *)
Module Samples.

(** A metadata table in which two of five articles have no files. *)
Definition metadata : Pandas.Frame :=
  {| Pandas.columns := [CStr (py "cord_uid"); CStr (py "title"); CStr (py "pdf_json_files")];
     Pandas.rows :=
       [(CInt 0, [CStr (py "ug7v899j"); CStr (py "Paper A"); CStr (py "a.json")]);
        (CInt 1, [CStr (py "9xk2mq01"); CStr (py "Paper X"); CNaN]);
        (CInt 2, [CStr (py "02tnwd4m"); CStr (py "Paper B"); CStr (py "b1.json; b2.json")]);
        (CInt 3, [CStr (py "p0o5d3tz"); CStr (py "Paper Y"); CNaN]);
        (CInt 4, [CStr (py "ejv2xln0"); CStr (py "Paper C"); CStr (py "c.json")])] |}.

(** A part of the labelled table: the metadata columns, a vector of size
    two and the cluster. *)
Definition labelled : Pandas.Frame :=
  {| Pandas.columns := columns_to_ignore ++ [CInt 0; CInt 1; CStr (py "cluster")];
     Pandas.rows :=
       [(CStr (py "ug7v899j"), replicate 18 CNaN ++ [CFloat 7%N; CFloat 8%N; CInt 4]);
        (CStr (py "02tnwd4m"), replicate 18 CNaN ++ [CFloat 9%N; CFloat 3%N; CInt 11])] |}.


End Samples.

(** * Properties *)

(** ** Running computations *)
Section Running.
Context {W : Type}.
Implicit Types st : State W.

Lemma bind_ok {A B} (m : M W A) (k : A -> M W B) st b st' :
  bind m k st = (Ok b, st') ->
  exists a st1, m st = (Ok a, st1) /\ k a st1 = (Ok b, st').
Proof.
  unfold bind. destruct (m st) as [[a|e] st1]; intros E.
  - exists a, st1. split; [reflexivity | exact E].
  - discriminate E.
Qed.

Lemma lift_ok {A} (r : Res A) st a st' :
  lift r st = (Ok a, st') -> r = Ok a /\ st' = st.
Proof. unfold lift. intros E. inversion E. split; reflexivity. Qed.

Lemma ret_ok {A} (x : A) st a st' :
  ret x st = (Ok a, st') -> a = x /\ st' = st.
Proof. unfold ret. intros E. inversion E. split; reflexivity. Qed.

Lemma request_run {A} (ev : event) (op : W -> Res A * W) st r w' :
  op (world st) = (r, w') ->
  request ev op st = (r, {| world := w'; log := log st ++ [ev] |}).
Proof. unfold request. intros ->. reflexivity. Qed.

Lemma request_ok {A} (ev : event) (op : W -> Res A * W) st a st' :
  request ev op st = (Ok a, st') ->
  exists w', op (world st) = (Ok a, w') /\ world st' = w' /\ log st' = log st ++ [ev].
Proof.
  unfold request. destruct (op (world st)) as [r w'] eqn:E. intros E'.
  inversion E'; subst. exists w'. simpl. auto.
Qed.

(** Whatever a request answers, the log grows by exactly its event. *)
Lemma request_log {A} (ev : event) (op : W -> Res A * W) st :
  log (snd (request ev op st)) = log st ++ [ev].
Proof. unfold request. destruct (op (world st)). reflexivity. Qed.

(** A property of the accumulator that every round of a loop keeps holds
    when the loop ends. *)
Lemma for_each_invariant {A B} (P : B -> Prop) (body : A -> B -> M W B) l :
  (forall x acc st acc' st',
      x ∈ l -> P acc -> body x acc st = (Ok acc', st') -> P acc') ->
  forall acc st r st',
    P acc -> for_each body l acc st = (Ok r, st') -> P r.
Proof.
  induction l as [|x l IH]; intros Hbody acc st r st' HP E; simpl in E.
  - apply ret_ok in E as [-> _]. exact HP.
  - apply bind_ok in E as (acc' & st1 & E1 & E2).
    eapply IH; [ | | exact E2].
    + intros y a s a' s' Hy. apply Hbody. now right.
    + eapply Hbody; [ now left | exact HP | exact E1 ].
Qed.

End Running.

(** Break up a run that ended with a value into the runs of its parts. *)
Ltac run_inv H :=
  repeat match type of H with
  | bind _ _ _ = (Ok _, _) =>
      let a := fresh "a" in let s := fresh "st" in
      let E := fresh "E" in
      apply bind_ok in H as (a & s & E & H)
  end.

(** ** Reader.read_file_to_json *)
Section ReaderFile.
Context {W : Type} `{Storage W}.

(** C2.  A first read that succeeds is returned as it is.  A first read
    that raises FileNotFoundError is followed by one restart of the mount
    and, once that has returned, by exactly one more read of the same
    path, whose outcome (the parsed content, or whatever it raises) is
    the outcome of the call. *)
Theorem read_file_to_json_retry_once (filepath : str) (st : State W) :
  (forall data w1,
      open_and_load filepath (world st) = (Ok data, w1) ->
      read_file_to_json filepath st
      = (Ok data, {| world := w1; log := log st ++ [EvOpen filepath] |}))
  /\
  (forall w1 w2 outcome w3,
      open_and_load filepath (world st) = (Raise FileNotFoundError, w1) ->
      mount_start w1 = (Ok (), w2) ->
      open_and_load filepath w2 = (outcome, w3) ->
      read_file_to_json filepath st
      = (outcome,
         {| world := w3;
            log := log st ++ [EvOpen filepath; EvMountStart; EvOpen filepath] |})).
Proof.
  split.
  - intros data w1 E1.
    unfold read_file_to_json, try_except, open_json.
    rewrite (request_run _ _ _ _ _ E1). reflexivity.
  - intros w1 w2 outcome w3 E1 E2 E3.
    unfold read_file_to_json, try_except, open_json, mount_restart.
    rewrite (request_run _ _ _ _ _ E1).
    destruct (decide (FileNotFoundError = FileNotFoundError)) as [_|N];
      [ | contradiction ].
    unfold bind. simpl in *.
    rewrite (request_run _ _ {| world := w1; log := _ |} _ _ E2).
    unfold request. simpl. rewrite E3.
    rewrite <- !app_assoc. reflexivity.
Qed.

(** X16.  An exception other than FileNotFoundError on the first read is
    not caught: no restart, no second read. *)
Lemma read_file_to_json_other_error (filepath : str) (st : State W) e w1 :
  open_and_load filepath (world st) = (Raise e, w1) ->
  e <> FileNotFoundError ->
  read_file_to_json filepath st
  = (Raise e, {| world := w1; log := log st ++ [EvOpen filepath] |}).
Proof.
  intros E1 Hne.
  unfold read_file_to_json, try_except, open_json.
  rewrite (request_run _ _ _ _ _ E1).
  destruct (decide (e = FileNotFoundError)); [contradiction | reflexivity].
Qed.

(** X17.  A restart of the mount that raises ends the call with that
    exception: no second read. *)
Lemma read_file_to_json_restart_fails (filepath : str) (st : State W) e w1 w2 :
  open_and_load filepath (world st) = (Raise FileNotFoundError, w1) ->
  mount_start w1 = (Raise e, w2) ->
  read_file_to_json filepath st
  = (Raise e, {| world := w2; log := log st ++ [EvOpen filepath; EvMountStart] |}).
Proof.
  intros E1 E2.
  unfold read_file_to_json, try_except, open_json, mount_restart.
  rewrite (request_run _ _ _ _ _ E1).
  destruct (decide (FileNotFoundError = FileNotFoundError)) as [_|N];
    [ | contradiction ].
  unfold bind.
  rewrite (request_run _ _ {| world := w1; log := _ |} _ _ E2).
  simpl. rewrite <- app_assoc. reflexivity.
Qed.

(** What the call returns was read from the file by one of its reads, and
    the call only adds to the log, the path's [EvOpen] among it. *)
Lemma read_file_to_json_ok (filepath : str) (st : State W) data st' :
  read_file_to_json filepath st = (Ok data, st') ->
  (exists w0 w1, open_and_load filepath w0 = (Ok data, w1))
  /\ exists evs, log st' = log st ++ evs /\ EvOpen filepath ∈ evs.
Proof.
  unfold read_file_to_json, try_except, open_json. intros E.
  destruct (request (EvOpen filepath) (open_and_load filepath) st)
    as [[d|e] st1] eqn:E1.
  - inversion E; subst. apply request_ok in E1 as (w' & E1 & _ & L).
    split; [eauto | ]. exists [EvOpen filepath]. split; [exact L | ].
    apply list_elem_of_singleton. reflexivity.
  - destruct (decide (e = FileNotFoundError)); [ | discriminate E ].
    assert (L1 : log st1 = log st ++ [EvOpen filepath]).
    { pose proof (request_log (EvOpen filepath) (open_and_load filepath) st) as L.
      rewrite E1 in L. exact L. }
    apply bind_ok in E as (u & st2 & E2 & E3).
    apply request_ok in E2 as (w2 & _ & _ & L2).
    apply request_ok in E3 as (w3 & E3 & _ & L3).
    split; [eauto | ].
    exists [EvOpen filepath; EvMountStart; EvOpen filepath]. split.
    + rewrite L3, L2, L1, <- !app_assoc. reflexivity.
    + apply list_elem_of_here.
Qed.

End ReaderFile.

(** ** Reader.parse_document *)
Section ReaderDocument.
Context {W : Type} `{Py.Unicode} `{Nltk} `{Storage W} `{Globals}.

Lemma punctuation_not_alphabetic (c : char) :
  c ∈ Py.punctuation -> Py.alphabetic c = false.
Proof.
  unfold Py.punctuation. intros Hc.
  repeat (apply elem_of_cons in Hc as [->|Hc]; [reflexivity | ]).
  inversion Hc.
Qed.

(** An alphabetic word is never made of punctuation only. *)
Lemma isalpha_not_punctuation_only (w : str) :
  Py.isalpha w = true -> punctuation_only w = false.
Proof.
  destruct w as [|c w]; [discriminate | ].
  unfold Py.isalpha, punctuation_only. simpl.
  intros Ha. apply andb_prop in Ha as [Hc _].
  destruct (bool_decide (c ∈ Py.punctuation)) eqn:E; [ | reflexivity ].
  apply bool_decide_eq_true in E.
  rewrite (punctuation_not_alphabetic c E) in Hc. discriminate.
Qed.

(** The tokens of a sentence: stems of the words that pass the filter. *)
Lemma sentence_tokens (p_sentence t : str) :
  t ∈ sentence p_sentence ->
  exists word, word ∈ word_tokenize p_sentence /\ keep word = true /\ t = stem word.
Proof.
  unfold sentence. intros Ht. apply list_elem_of_In in Ht.
  apply in_map_iff in Ht as (word & <- & Hw).
  apply filter_In in Hw as [Hw Hk].
  exists word. split; [ apply list_elem_of_In; exact Hw | auto ].
Qed.

Lemma keep_token (word : str) :
  keep word = true ->
  Py.isalpha word = true
  /\ punctuation_only word = false
  /\ stop_word word = false.
Proof.
  unfold keep. intros Hk. apply andb_prop in Hk as [Ha Hs].
  split; [exact Ha | ]. split; [ apply isalpha_not_punctuation_only; exact Ha | ].
  apply negb_true_iff. exact Hs.
Qed.

Lemma parse_paragraph_tokens (P : str -> Prop) (paragraph : json) :
  (forall ptext p_sentence word,
      Py.getitem paragraph (py "text") = Ok (JStr ptext) ->
      p_sentence ∈ sent_tokenize ptext ->
      word ∈ word_tokenize p_sentence ->
      keep word = true -> P (stem word)) ->
  forall acc (st : State W) acc' st',
    Forall P acc ->
    parse_paragraph paragraph acc st = (Ok acc', st') ->
    Forall P acc'.
Proof.
  intros HP acc st acc' st' Hacc E. unfold parse_paragraph in E.
  run_inv E.
  apply lift_ok in E0 as [Eg ->]. apply lift_ok in E1 as [Es ->].
  destruct a as [| | |ptext| |]; try discriminate Es.
  injection Es as <-.
  eapply (for_each_invariant (Forall P)); [ | exact Hacc | exact E ].
  intros p_sentence a s a' s' Hin Ha Er.
  apply ret_ok in Er as [-> _].
  apply Forall_app. split; [exact Ha | ].
  apply Forall_forall. intros t Ht.
  apply sentence_tokens in Ht as (word & Hw & Hk & ->).
  eapply HP; eauto.
Qed.

(** The path of [parse_document] that returns leaves the file names of the
    article, the tokens, and the article id. *)
Lemma parse_document_ok (document_index : Z) (st : State W) ws id st' :
  parse_document document_index st = (Ok (ws, id), st') ->
  exists filenames,
    filenames_of document_index = Ok filenames
    /\ for_each parse_file filenames [] st = (Ok ws, st')
    /\ uid_at document_index = Ok id.
Proof.
  unfold parse_document. intros E. run_inv E.
  apply lift_ok in E0 as [Ed ->]. apply lift_ok in E1 as [Ef ->].
  apply lift_ok in E2 as [Es ->]. apply lift_ok in E4 as [Eu ->].
  apply ret_ok in E as [E ->]. injection E as <- <-.
  exists a1. unfold filenames_of, uid_at. rewrite Ed. simpl. rewrite Ef. simpl.
  auto.
Qed.

(** Every token that [parse_document] emits is the stem of a word of the
    body text of the article that passed the filter. *)
Lemma parse_document_token_of (document_index : Z) (st : State W) ws id st' :
  parse_document document_index st = (Ok (ws, id), st') ->
  Forall (token_of document_index) ws.
Proof.
  intros E. apply parse_document_ok in E as (filenames & Hf & E & _).
  eapply (for_each_invariant (Forall (token_of document_index)));
    [ | apply Forall_nil_2 | exact E ].
  clear E. intros filename acc s acc' s' Hin Hacc E.
  unfold parse_file in E. run_inv E.
  apply read_file_to_json_ok in E0 as [(w0 & w1 & Hread) _].
  apply lift_ok in E1 as [Hb ->]. apply lift_ok in E2 as [Hi ->].
  eapply (for_each_invariant (Forall (token_of document_index)));
    [ | exact Hacc | exact E ].
  intros paragraph acc1 s1 acc2 s2 Hp Hacc1 Ep.
  eapply parse_paragraph_tokens; [ | exact Hacc1 | exact Ep ].
  intros ptext p_sentence word Hg Hs Hw Hk.
  exists word. destruct (keep_token word Hk) as (Ha & Hn & Hstop).
  repeat split; try assumption.
  exists filenames, filename, a, w0, w1. repeat split; try assumption.
  exists a0, a1, paragraph, ptext, p_sentence. repeat split; assumption.
Qed.

(** C1, as amended.  Taking of the stemmer that the stem of an alphabetic
    word is never made of punctuation only, the list that [parse_document]
    emits has no entry made of punctuation only, and every entry is the
    stem of a word of the body text of the article that is alphabetic,
    hence not made of punctuation only, and whose lower-cased form is not
    in the stop set.  The stop set is consulted before stemming: that the
    stem itself is no stop word is not said, and does not hold. *)
Theorem parse_document_tokens (document_index : Z) (st : State W) ws id st' :
  (forall word, Py.isalpha word = true -> punctuation_only (stem word) = false) ->
  parse_document document_index st = (Ok (ws, id), st') ->
  Forall (fun t => punctuation_only t = false /\ token_of document_index t) ws.
Proof.
  intros Hstem E. apply parse_document_token_of in E.
  eapply Forall_impl; [exact E | ].
  intros t Ht. split; [ | exact Ht ].
  destruct Ht as (word & _ & Ha & _ & _ & ->). apply Hstem. exact Ha.
Qed.

End ReaderDocument.

(** ** Corpus *)
Section CorpusPasses.
Context {W : Type} `{Py.Unicode} `{Nltk} `{Storage W} `{Globals}.
Implicit Types st : State W.

Lemma range_cons (lo hi : Z) :
  lo < hi -> Py.range lo hi = lo :: Py.range (lo + 1) hi.
Proof.
  intros Hlt. unfold Py.range.
  replace (Z.to_nat (hi - lo)) with (S (Z.to_nat (hi - (lo + 1)))) by lia.
  simpl. f_equal; [lia | ].
  rewrite <- seq_shift, map_map. apply map_ext. intros k. lia.
Qed.

Lemma range_empty (lo hi : Z) : hi <= lo -> Py.range lo hi = [].
Proof.
  intros Hle. unfold Py.range.
  replace (Z.to_nat (hi - lo)) with O by lia. reflexivity.
Qed.

Lemma range_length (lo hi : Z) : length (Py.range lo hi) = Z.to_nat (hi - lo).
Proof. unfold Py.range. rewrite length_map, length_seq. reflexivity. Qed.

Lemma range_lookup (lo hi : Z) (k : nat) :
  (k < Z.to_nat (hi - lo))%nat -> Py.range lo hi !! k = Some (lo + Z.of_nat k).
Proof.
  intros Hk. unfold Py.range.
  change (map ?f ?l) with (f <$> l).
  rewrite list_lookup_fmap, lookup_seq_lt by exact Hk. reflexivity.
Qed.

Lemma iter_next_gen (g : Generator) st : iter_next g st = gen_next tagged g st.
Proof.
  unfold iter_next, gen_next. destruct (pending g) as [|i rest]; [reflexivity | ].
  unfold bind. destruct (parse_document i st) as [[[ws id]|e] st1]; reflexivity.
Qed.

Lemma plain_iter_next_gen (g : Generator) st :
  plain_iter_next g st = gen_next id g st.
Proof.
  unfold plain_iter_next, gen_next. destruct (pending g) as [|i rest]; [reflexivity | ].
  unfold bind. destruct (parse_document i st) as [[[ws id]|e] st1]; reflexivity.
Qed.

Lemma for_in_ext {A B} (next next' : Generator -> M W (option A * Generator))
    (body : A -> B -> M W B) :
  (forall g st, next g st = next' g st) ->
  forall fuel g acc st,
    for_in next body fuel g acc st = for_in next' body fuel g acc st.
Proof.
  intros Hext fuel. induction fuel as [|fuel IH]; intros g acc st; [reflexivity | ].
  simpl. unfold bind. rewrite Hext.
  destruct (next' g st) as [[[[x|] g']|e] st1]; try reflexivity.
  destruct (body x acc st1) as [[acc'|e] st2]; [apply IH | reflexivity].
Qed.

Lemma run_pass_ext {A} (next next' : Generator -> M W (option A * Generator)) :
  (forall g st, next g st = next' g st) ->
  forall fuel g st, run_pass next fuel g st = run_pass next' fuel g st.
Proof.
  intros Hext fuel. induction fuel as [|fuel IH]; intros g st; [reflexivity | ].
  simpl. rewrite Hext.
  destruct (next' g st) as [[[[x|] g']|e] st1]; try reflexivity.
  rewrite IH. reflexivity.
Qed.

(** The fuel given to a loop over a generator of [Corpus] is enough: the
    loop is the plain loop over the pending indices that parses each
    document and runs the body on it. *)
Lemma for_in_enough_fuel {A B} (wrap : list str * cell -> A) (body : A -> B -> M W B) l :
  forall acc st,
    for_in (gen_next wrap) body (S (length l)) {| pending := l |} acc st
    = for_each (fun i acc => let! item := parse_document i in body (wrap item) acc)
        l acc st.
Proof.
  induction l as [|i l IH]; intros acc st.
  - reflexivity.
  - change (S (length (i :: l))) with (S (S (length l))).
    cbn [for_in for_each]. unfold gen_next at 1. cbn [pending].
    unfold bind, ret.
    destruct (parse_document i st) as [[item|e] s1]; [ | reflexivity ].
    destruct (body (wrap item) acc s1) as [[acc'|e] s2]; [ | reflexivity ].
    apply IH.
Qed.

(** The loop over a generator, seen from the accumulator: a relation
    between the documents consumed so far and the accumulator that every
    round keeps holds at the end, for the documents of all pending
    indices in order. *)
Lemma for_in_gen {A B} (wrap : list str * cell -> A) (body : A -> B -> M W B)
    (I : list (list str * cell) -> B -> Prop) :
  (forall seen item acc st acc' st',
      I seen acc -> body (wrap item) acc st = (Ok acc', st') ->
      I (seen ++ [item]) acc') ->
  forall l seen acc st r st',
    I seen acc ->
    for_in (gen_next wrap) body (S (length l)) {| pending := l |} acc st = (Ok r, st') ->
    exists items, I (seen ++ items) r /\ Forall2 parsed l items.
Proof.
  intros Hbody l. induction l as [|i l IH]; intros seen acc st r st' HI E.
  - simpl in E. unfold gen_next in E. simpl in E.
    apply bind_ok in E as ([item g'] & s1 & E1 & E2).
    apply ret_ok in E1 as [E1 ->]. inversion E1; subst; clear E1.
    apply ret_ok in E2 as [-> _].
    exists []. rewrite app_nil_r. split; [exact HI | constructor].
  - change (S (length (i :: l))) with (S (S (length l))) in E.
    cbn [for_in] in E. unfold gen_next at 1 in E. cbn [pending] in E.
    apply bind_ok in E as ([item' g'] & s1 & E1 & E2).
    apply bind_ok in E1 as (item & s0 & Ep & E1).
    apply ret_ok in E1 as [E1 ->]. inversion E1; subst; clear E1.
    apply bind_ok in E2 as (acc' & s2 & Eb & E2).
    destruct (IH (seen ++ [item]) acc' s2 r st') as (items & HI' & HF).
    + eapply Hbody; eassumption.
    + exact E2.
    + exists (item :: items). split.
      * rewrite <- app_assoc in HI'. exact HI'.
      * constructor; [ exists st, s0; exact Ep | exact HF ].
Qed.

(** *** What a pass asks of storage *)

Lemma for_each_log {A B} (R : A -> event -> Prop) (body : A -> B -> M W B) l :
  (forall x acc st acc' st',
      x ∈ l -> body x acc st = (Ok acc', st') ->
      exists evs, log st' = log st ++ evs /\ forall ev, R x ev -> ev ∈ evs) ->
  forall acc st r st',
    for_each body l acc st = (Ok r, st') ->
    exists evs, log st' = log st ++ evs /\ forall x ev, x ∈ l -> R x ev -> ev ∈ evs.
Proof.
  induction l as [|x l IH]; intros Hbody acc st r st' E; simpl in E.
  - apply ret_ok in E as [_ ->]. exists []. rewrite app_nil_r.
    split; [reflexivity | ]. intros y ev Hy. inversion Hy.
  - apply bind_ok in E as (acc' & s1 & E1 & E2).
    apply Hbody in E1 as (evs1 & L1 & Hev1); [ | now left ].
    apply IH in E2 as (evs2 & L2 & Hev2);
      [ | intros y a s a' s' Hy; apply Hbody; now right ].
    exists (evs1 ++ evs2). split.
    + rewrite L2, L1, app_assoc. reflexivity.
    + intros y ev Hy HR. apply elem_of_app.
      apply elem_of_cons in Hy as [->|Hy]; [left; auto | right; eauto].
Qed.

Lemma for_each_same_state {A B} (body : A -> B -> M W B) l :
  (forall x acc st acc' st', body x acc st = (Ok acc', st') -> st' = st) ->
  forall acc st r st', for_each body l acc st = (Ok r, st') -> st' = st.
Proof.
  intros Hbody. induction l as [|x l IH]; intros acc st r st' E; simpl in E.
  - apply ret_ok in E as [_ ->]. reflexivity.
  - apply bind_ok in E as (acc' & s1 & E1 & E2).
    apply Hbody in E1 as ->. eapply IH. exact E2.
Qed.

(** Tokenizing a paragraph asks nothing of the outside world. *)
Lemma parse_paragraph_same_state (paragraph : json) acc st acc' st' :
  parse_paragraph paragraph acc st = (Ok acc', st') -> st' = st.
Proof.
  unfold parse_paragraph. intros E. run_inv E.
  apply lift_ok in E0 as [_ ->]. apply lift_ok in E1 as [_ ->].
  eapply for_each_same_state; [ | exact E ].
  intros x acc0 s acc1 s' Er. apply ret_ok in Er as [_ ->]. reflexivity.
Qed.

Lemma parse_file_log (filename : str) acc st acc' st' :
  parse_file filename acc st = (Ok acc', st') ->
  exists evs, log st' = log st ++ evs
              /\ EvOpen (covid_dirpath ++ py "/" ++ filename) ∈ evs.
Proof.
  unfold parse_file. intros E. run_inv E.
  apply read_file_to_json_ok in E0 as [_ (evs & L & Hin)].
  apply lift_ok in E1 as [_ ->]. apply lift_ok in E2 as [_ ->].
  apply for_each_same_state in E as ->;
    [ | intros; eapply parse_paragraph_same_state; eassumption ].
  exists evs. auto.
Qed.

(** A parse that returns has opened every file listed for the article. *)
Lemma parse_document_log (document_index : Z) st item st' :
  parse_document document_index st = (Ok item, st') ->
  exists evs, log st' = log st ++ evs
              /\ forall ev, opens_of document_index ev -> ev ∈ evs.
Proof.
  destruct item as [ws id]. intros E.
  apply parse_document_ok in E as (filenames & Hf & E & _).
  apply (for_each_log
           (fun filename ev => ev = EvOpen (covid_dirpath ++ py "/" ++ filename)))
    in E as (evs & L & Hall).
  - exists evs. split; [exact L | ].
    intros ev (fs & f & Hfs & Hin & ->).
    rewrite Hf in Hfs. injection Hfs as <-. eapply Hall; eauto.
  - intros f acc0 s acc1 s' _ Er. apply parse_file_log in Er as (evs & L & Hin).
    exists evs. split; [exact L | ]. intros ev ->. exact Hin.
Qed.

(** A completed pass has opened every file of every pending article. *)
Lemma collect_log {A} (wrap : list str * cell -> A) l :
  forall acc st r st',
    for_in (gen_next wrap) (fun x acc => ret (acc ++ [x])) (S (length l))
      {| pending := l |} acc st = (Ok r, st') ->
    exists evs, log st' = log st ++ evs
                /\ forall i ev, i ∈ l -> opens_of i ev -> ev ∈ evs.
Proof.
  induction l as [|i l IH]; intros acc st r st' E.
  - simpl in E. unfold gen_next in E. simpl in E.
    apply bind_ok in E as ([item g'] & s1 & E1 & E2).
    apply ret_ok in E1 as [E1 ->]. inversion E1; subst; clear E1.
    apply ret_ok in E2 as [_ ->].
    exists []. rewrite app_nil_r. split; [reflexivity | ].
    intros i ev Hi. inversion Hi.
  - change (S (length (i :: l))) with (S (S (length l))) in E.
    cbn [for_in] in E. unfold gen_next at 1 in E. cbn [pending] in E.
    apply bind_ok in E as ([item' g'] & s1 & E1 & E2).
    apply bind_ok in E1 as (item & s0 & Ep & E1).
    apply ret_ok in E1 as [E1 ->]. inversion E1; subst; clear E1.
    apply bind_ok in E2 as (acc' & s2 & Eb & E2).
    apply ret_ok in Eb as [_ ->].
    apply parse_document_log in Ep as (evs1 & L1 & Hev1).
    apply IH in E2 as (evs2 & L2 & Hev2).
    exists (evs1 ++ evs2). split.
    + rewrite L2, L1, app_assoc. reflexivity.
    + intros j ev Hj Hop. apply elem_of_app.
      apply elem_of_cons in Hj as [->|Hj]; [left; auto | right; eauto].
Qed.

(** *** The ids of a pass *)

Lemma parsed_uid (document_index : Z) (item : list str * cell) :
  parsed document_index item -> uid_at document_index = Ok (snd item).
Proof.
  destruct item as [ws id]. intros (s & s' & E).
  apply parse_document_ok in E as (_ & _ & _ & Hu). exact Hu.
Qed.

(** An id can be read only at a position inside the table. *)
Lemma uid_at_inside (document_index : Z) id :
  0 <= document_index -> uid_at document_index = Ok id ->
  document_index < Z.of_nat (length (Pandas.rows metadata_with_docs)).
Proof.
  unfold uid_at, Pandas.iloc. intros Hnn E.
  destruct (document_index <? 0) eqn:Hneg; [lia | ].
  destruct ((0 <=? document_index)
            && (document_index <? Z.of_nat (length (Pandas.rows metadata_with_docs))))
    eqn:Hin; [ | discriminate E ].
  apply andb_prop in Hin as [_ Hlt]. lia.
Qed.

Lemma collect_items {A} (wrap : list str * cell -> A) (c : Corpus) st docs st' :
  collect (gen_next wrap) (generator_of c) st = (Ok docs, st') ->
  exists items,
    docs = map wrap items
    /\ Forall2 parsed (Py.range 0 (n_documents c)) items.
Proof.
  unfold collect, for_loop, generator_of. cbn [pending]. intros E.
  apply (for_in_gen wrap _ (fun seen acc => acc = map wrap seen)) with (seen := [])
    in E as (items & HI & HF).
  - exists items. auto.
  - intros seen item acc s acc' s' -> Er. apply ret_ok in Er as [-> _].
    rewrite map_app. reflexivity.
  - reflexivity.
Qed.

Lemma Forall2_uids_unique (l : list Z) (ids1 ids2 : list cell) :
  Forall2 (fun i id => uid_at i = Ok id) l ids1 ->
  Forall2 (fun i id => uid_at i = Ok id) l ids2 ->
  ids1 = ids2.
Proof.
  intros Hids1. revert ids2.
  induction Hids1 as [|i id l ids1 Hi _ IH]; intros ids2 Hids2.
  - inversion Hids2. reflexivity.
  - inversion Hids2 as [|? id' ? ids2' Hi' Hrest]; subst.
    rewrite Hi in Hi'. injection Hi' as <-. f_equal. apply IH. exact Hrest.
Qed.

Lemma parsed_uids (l : list Z) (items : list (list str * cell)) :
  Forall2 parsed l items ->
  Forall2 (fun i id => uid_at i = Ok id) l (map snd items).
Proof.
  induction 1 as [|i item l items Hp _ IH]; simpl; constructor.
  - apply parsed_uid. exact Hp.
  - exact IH.
Qed.

(** The ids that a completed pass of [gen_next] yields are the ids of the
    table at the positions 0, 1, ..., n-1, and the table has that many
    rows. *)
Lemma pass_ids {A} (wrap : list str * cell -> A) (n : Z) st docs st' :
  collect (gen_next wrap) (generator_of {| n_documents := n |}) st = (Ok docs, st') ->
  exists items,
    docs = map wrap items
    /\ Forall2 parsed (Py.range 0 n) items
    /\ Forall2 (fun i id => uid_at i = Ok id) (Py.range 0 n) (map snd items)
    /\ length items = Z.to_nat n
    /\ (Z.to_nat n <= length (Pandas.rows metadata_with_docs))%nat.
Proof.
  intros E. apply collect_items in E as (items & -> & HF). cbn in HF.
  exists items. split; [reflexivity | ]. split; [exact HF | ].
  pose proof (parsed_uids _ _ HF) as HU. split; [exact HU | ].
  assert (HL : length items = Z.to_nat n).
  { apply Forall2_length in HF. rewrite range_length in HF.
    rewrite <- HF. f_equal. lia. }
  split; [exact HL | ].
  destruct (Z.to_nat n) as [|k] eqn:Hn; [lia | ].
  assert (Hlast : Py.range 0 n !! k = Some (0 + Z.of_nat k)).
  { apply range_lookup. lia. }
  destruct (Forall2_lookup_l _ _ _ _ _ HU Hlast) as (id & _ & Hid).
  apply uid_at_inside in Hid; lia.
Qed.

Lemma collect_ext {A} (next next' : Generator -> M W (option A * Generator)) :
  (forall g st, next g st = next' g st) ->
  forall g st, collect next g st = collect next' g st.
Proof. intros Hext g st. unfold collect, for_loop. apply for_in_ext. exact Hext. Qed.

(** C7, as amended.  Two passes of [Corpus(n).__iter__] that both run to
    the end yield the same ids in the same order: as many as the indices
    0, ..., n-1 (none when n is not positive), the id at position k being
    the one of row k of the table, which has at least n rows.  Nothing is
    kept from one pass to the next: each pass opens every file of every
    one of these articles. *)
Theorem corpus_passes_same_ids (n : Z) st1 st2 docs1 docs2 st1' st2' :
  collect iter_next (generator_of {| n_documents := n |}) st1 = (Ok docs1, st1') ->
  collect iter_next (generator_of {| n_documents := n |}) st2 = (Ok docs2, st2') ->
  map tags docs1 = map tags docs2
  /\ length docs1 = Z.to_nat n
  /\ (Z.to_nat n <= length (Pandas.rows metadata_with_docs))%nat
  /\ Forall2 (fun i d => exists id, uid_at i = Ok id /\ tags d = Scalar id)
       (Py.range 0 n) docs1
  /\ (exists evs, log st1' = log st1 ++ evs
                  /\ forall i ev, 0 <= i < n -> opens_of i ev -> ev ∈ evs)
  /\ (exists evs, log st2' = log st2 ++ evs
                  /\ forall i ev, 0 <= i < n -> opens_of i ev -> ev ∈ evs).
Proof.
  intros E1 E2.
  rewrite (collect_ext _ _ iter_next_gen) in E1, E2.
  assert (Hin : forall i, 0 <= i < n -> i ∈ Py.range 0 n).
  { intros i Hi. apply list_elem_of_lookup. exists (Z.to_nat i).
    rewrite range_lookup by lia. f_equal. lia. }
  assert (Hlog : forall st docs st',
             collect (gen_next tagged) (generator_of {| n_documents := n |}) st
             = (Ok docs, st') ->
             exists evs, log st' = log st ++ evs
                         /\ forall i ev, 0 <= i < n -> opens_of i ev -> ev ∈ evs).
  { intros st docs st' E. unfold collect, for_loop, generator_of in E.
    cbn [pending] in E. apply collect_log in E as (evs & L & Hall).
    exists evs. split; [exact L | ]. intros i ev Hi. apply Hall, Hin, Hi. }
  pose proof (Hlog _ _ _ E1) as L1. pose proof (Hlog _ _ _ E2) as L2.
  apply pass_ids in E1 as (items1 & -> & _ & U1 & Len1 & Hrows).
  apply pass_ids in E2 as (items2 & -> & _ & U2 & _ & _).
  pose proof (Forall2_uids_unique _ _ _ U1 U2) as Hsame.
  repeat split; try assumption.
  - rewrite !map_map. unfold tagged. cbn [tags].
    rewrite <- (map_map snd Scalar items1), <- (map_map snd Scalar items2).
    rewrite Hsame. reflexivity.
  - rewrite length_map. exact Len1.
  - clear - U1. revert U1. generalize (Py.range 0 n). intros l.
    revert l. induction items1 as [|item items IH]; intros l U; inversion U; subst.
    + constructor.
    + constructor; [ | apply IH; assumption ].
      exists (snd item). split; [assumption | reflexivity].
Qed.

(** A pass runs to the end when every parse it makes returns. *)
Lemma corpus_pass_completes (n : Z) st :
  (forall i s, 0 <= i < n -> exists item s', parse_document i s = (Ok item, s')) ->
  exists docs st',
    collect iter_next (generator_of {| n_documents := n |}) st = (Ok docs, st').
Proof.
  intros Hparse. rewrite (collect_ext _ _ iter_next_gen).
  unfold collect, for_loop, generator_of. cbn [pending n_documents].
  rewrite for_in_enough_fuel.
  assert (Hin : forall i, i ∈ Py.range 0 n -> 0 <= i < n).
  { intros i Hi. apply list_elem_of_lookup in Hi as [k Hk].
    assert (Hlt : (k < Z.to_nat (n - 0))%nat).
    { apply lookup_lt_Some in Hk. rewrite range_length in Hk. exact Hk. }
    rewrite range_lookup in Hk by exact Hlt. injection Hk as <-. lia. }
  assert (Hloop : forall l, (forall i, i ∈ l -> 0 <= i < n) ->
             forall s (acc : list TaggedDocument),
             exists docs st',
               for_each (fun i acc => let! item := parse_document i in
                                      ret (acc ++ [tagged item])) l acc s
               = (Ok docs, st')).
  { induction l as [|i l IH]; intros Hl s acc.
    - exists acc, s. reflexivity.
    - destruct (Hparse i s) as (item & s1 & Ep); [apply Hl; now left | ].
      destruct (IH (fun j Hj => Hl j (list_elem_of_further _ _ _ Hj)) s1
                  (acc ++ [tagged item]))
        as (docs & st' & E).
      exists docs, st'. cbn [for_each]. unfold bind, ret. rewrite Ep. exact E. }
  apply Hloop. exact Hin.
Qed.

(** The same holds of a pass of [plain_iter]. *)
Lemma plain_pass_ids (n : Z) st docs st' :
  collect plain_iter_next (generator_of {| n_documents := n |}) st = (Ok docs, st') ->
  Forall2 (fun i id => uid_at i = Ok id) (Py.range 0 n) (map snd docs)
  /\ length docs = Z.to_nat n
  /\ (Z.to_nat n <= length (Pandas.rows metadata_with_docs))%nat.
Proof.
  intros E. rewrite (collect_ext _ _ plain_iter_next_gen) in E.
  apply pass_ids in E as (items & -> & _ & U & Len & Hrows).
  rewrite map_id. auto.
Qed.

(** *** The two generators *)

Lemma run_pass_tagged fuel (g : Generator) st :
  run_pass (gen_next tagged) fuel g st
  = let '(items, r, st') := run_pass (gen_next id) fuel g st in
    (map tagged items, r, st').
Proof.
  revert g st. induction fuel as [|fuel IH]; intros g st; [reflexivity | ].
  cbn [run_pass].
  assert (Hstep : gen_next tagged g st
                  = match gen_next id g st with
                    | (Ok (item, g'), st') => (Ok (tagged <$> item, g'), st')
                    | (Raise e, st') => (Raise e, st')
                    end).
  { unfold gen_next. destruct (pending g) as [|i rest]; [reflexivity | ].
    unfold bind. destruct (parse_document i st) as [[item|e] s1]; reflexivity. }
  rewrite Hstep.
  destruct (gen_next id g st) as [[[[x|] g']|e] s1]; try reflexivity.
  cbn [fmap option_fmap option_map id]. rewrite IH.
  destruct (run_pass (gen_next id) fuel g' s1) as [[items r] s2].
  reflexivity.
Qed.

(** C10.  At every index i of [0, n), one step of [__iter__] and one step
    of [plain_iter] run the same [parse_document(i)] and yield its result,
    the first wrapped into a [TaggedDocument] whose [words] are the token
    list and whose [tags] is the document id itself, not a list holding
    it, the second as the plain pair; both move on to index i+1, and an
    exception of the parse leaves both the same way.  Over a whole pass
    the documents of [__iter__] are those of [plain_iter], wrapped. *)
Theorem iter_is_wrapped_plain_iter (n i : Z) st :
  0 <= i < n ->
  let g := {| pending := Py.range i n |} in
  let g' := {| pending := Py.range (i + 1) n |} in
  plain_iter_next g st
  = match parse_document i st with
    | (Ok item, st') => (Ok (Some item, g'), st')
    | (Raise e, st') => (Raise e, st')
    end
  /\ iter_next g st
     = match parse_document i st with
       | (Ok item, st') => (Ok (Some (tagged item), g'), st')
       | (Raise e, st') => (Raise e, st')
       end
  /\ (forall item : list str * cell,
         words (tagged item) = fst item
         /\ tags (tagged item) = Scalar (snd item)
         /\ tags (tagged item) <> ListOf [snd item])
  /\ yielded iter_next (generator_of {| n_documents := n |}) st
     = let '(items, r, st') :=
         yielded plain_iter_next (generator_of {| n_documents := n |}) st in
       (map tagged items, r, st').
Proof.
  intros Hi g g'. subst g g'.
  split; [ | split; [ | split ] ].
  - unfold plain_iter_next. cbn [pending]. rewrite (range_cons i n) by lia.
    unfold bind. destruct (parse_document i st) as [[[ws id]|e] s1]; reflexivity.
  - unfold iter_next. cbn [pending]. rewrite (range_cons i n) by lia.
    unfold bind. destruct (parse_document i st) as [[[ws id]|e] s1]; reflexivity.
  - intros item. repeat split. discriminate.
  - unfold yielded.
    rewrite (run_pass_ext _ _ iter_next_gen), (run_pass_ext _ _ plain_iter_next_gen).
    apply run_pass_tagged.
Qed.

End CorpusPasses.

(** ** The pipeline cells *)
Section PipelineProofs.
Context {W Model : Type}
  `{Py.Unicode} `{Nltk} `{Storage W} `{Globals} `{Gensim W Model} `{Sklearn W}.
Implicit Types st : State W.

(** *** The embedding model *)

Lemma py_inj (s1 s2 : string) : py s1 = py s2 -> s1 = s2.
Proof.
  unfold py. intros E.
  assert (E' : String.list_ascii_of_string s1 = String.list_ascii_of_string s2).
  { revert E. generalize (String.list_ascii_of_string s1),
      (String.list_ascii_of_string s2).
    intros l1. induction l1 as [|a l1 IH]; intros [|b l2] E; simpl in E;
      try discriminate; [reflexivity | ].
    injection E as Hab Hl. f_equal; [ | apply IH; exact Hl ].
    rewrite <- (Ascii.ascii_N_embedding a), <- (Ascii.ascii_N_embedding b), Hab.
    reflexivity. }
  rewrite <- (String.string_of_list_ascii_of_string s1),
    <- (String.string_of_list_ascii_of_string s2), E'.
  reflexivity.
Qed.

(** X11.  Two document counts never share a file name: a model saved for
    one count is never found, and loaded, for another. *)
Lemma model_filename_inj (N1 N2 : Z) :
  model_filename N1 = model_filename N2 -> N1 = N2.
Proof.
  unfold model_filename, Py.str_of_int. intros E.
  apply app_inv_head, app_inv_tail, py_inj in E.
  apply (inj pretty) in E. exact E.
Qed.

(** C6.  The file name is [model_filename N_DOCUMENTS], a function of the
    document count alone.  When a file of that name exists, the cell asks
    for the existence check and the load and nothing else, and its
    outcome is the outcome of the load.  Otherwise it trains a model of
    vector size 128 over [Corpus(N_DOCUMENTS)], every pass of the trainer
    being a run of [__iter__] over that corpus, and saves the trained
    model under that very name; a training that raises leaves without
    saving. *)
Theorem load_or_train_spec (N_DOCUMENTS : Z) st :
  let name := model_filename N_DOCUMENTS in
  let corpus := {| n_documents := N_DOCUMENTS |} in
  (os_path_exists name (world st) = true ->
   forall outcome w1,
     Doc2Vec_load name (world st) = (outcome, w1) ->
     load_or_train N_DOCUMENTS st
     = (outcome, {| world := w1; log := log st ++ [EvExists name; EvLoad name] |}))
  /\
  (os_path_exists name (world st) = false ->
   forall trained w1,
     Doc2Vec_init (run_quiet (collect iter_next (generator_of corpus))) 128 10 (world st)
     = (trained, w1) ->
     match trained with
     | Ok model =>
         forall saved w2,
           Doc2Vec_save model name w1 = (saved, w2) ->
           load_or_train N_DOCUMENTS st
           = (res_bind saved (fun _ => Ok model),
              {| world := w2;
                 log := log st ++ [EvExists name; EvTrain N_DOCUMENTS 128 10; EvSave name] |})
     | Raise e =>
         load_or_train N_DOCUMENTS st
         = (Raise e,
            {| world := w1;
               log := log st ++ [EvExists name; EvTrain N_DOCUMENTS 128 10] |})
     end).
Proof.
  intros name corpus. split.
  - intros Hex outcome w1 El.
    unfold load_or_train, bind, request at 1. fold name. rewrite Hex.
    unfold request. cbn [world log]. rewrite El.
    rewrite <- app_assoc. reflexivity.
  - intros Hex trained w1 Et.
    destruct trained as [model|e]; [intros saved w2 Es | ];
      unfold load_or_train, Doc2Vec, bind, request;
      cbn [world log n_documents]; fold name; rewrite Hex;
      cbn [world log]; fold corpus; rewrite Et; cbn [world log].
    + rewrite Es. rewrite <- !app_assoc. destruct saved; reflexivity.
    + rewrite <- app_assoc. reflexivity.
Qed.

(** *** Clustering *)

Lemma capped_at_most_12 (elbow_value_ : option Z) (k : Z) :
  capped elbow_value_ = Ok k ->
  exists e, elbow_value_ = Some e
            /\ (e <= 12 -> k = e) /\ (12 < e -> k = 12) /\ k <= 12.
Proof.
  destruct elbow_value_ as [e|]; [ | discriminate ].
  unfold capped. intros E. injection E as <-. exists e.
  split; [reflexivity | ].
  destruct (e >? 12) eqn:C; lia.
Qed.

(** C4.  Taking of KMeans what scikit-learn promises of [labels_] (one
    label per row of the input, each in [0, n_clusters)), the clustering
    cell asks for the elbow over the candidate bounds (3, 20), then fits
    with k the elbow value when that is at most 12 and with 12 when it is
    more, and what it returns is the labelling of that fit for the very
    table it was given: one label per document vector, each in [0, k),
    with k at most 12. *)
Theorem cluster_documents_labels (wv_df : Pandas.Frame) st labels st' :
  (forall k X w ls w',
      KMeans_fit k X w = (Ok ls, w') ->
      length ls = length (Pandas.rows X) /\ Forall (fun l => 0 <= l < k) ls) ->
  cluster_documents wv_df st = (Ok labels, st') ->
  exists e k w1 w2,
    KElbowVisualizer_fit (3, 20) wv_df (world st) = (Ok (Some e), w1)
    /\ (e <= 12 -> k = e) /\ (12 < e -> k = 12) /\ k <= 12
    /\ KMeans_fit k wv_df w1 = (Ok labels, w2)
    /\ log st' = log st ++ [EvElbow 3 20; EvKMeans k]
    /\ length labels = length (Pandas.rows wv_df)
    /\ Forall (fun l => 0 <= l < k) labels.
Proof.
  intros Hkmeans E. unfold cluster_documents in E. run_inv E.
  apply request_ok in E0 as (w1 & Ee & Hw1 & L1).
  apply lift_ok in E1 as [Ec ->].
  apply request_ok in E as (w2 & Ek & _ & L2).
  apply capped_at_most_12 in Ec as (e & -> & Hle & Hgt & Hcap).
  rewrite Hw1 in Ek.
  destruct (Hkmeans _ _ _ _ _ Ek) as [Hlen Hran].
  exists e, a0, w1, w2. repeat split; try assumption.
  rewrite L2, L1, <- app_assoc. reflexivity.
Qed.

(** *** The inference pass and the merge *)

(** The loop of the inference cell: the ids are those of the documents
    that the generator yielded, in order, and the vector at each position
    was inferred from the words of the document at that position. *)
Lemma infer_all_items (model : Model) (N_DOCUMENTS : Z) st word_vectors ids st' :
  infer_all model N_DOCUMENTS st = (Ok (word_vectors, ids), st') ->
  exists items,
    ids = map snd items
    /\ Forall2 parsed (Py.range 0 N_DOCUMENTS) items
    /\ Forall2 (inferred model) items word_vectors.
Proof.
  unfold infer_all, for_loop, generator_of. cbn [pending n_documents]. intros E.
  rewrite (for_in_ext _ _ _ plain_iter_next_gen) in E.
  apply (for_in_gen id _
           (fun seen acc => snd acc = map snd seen
                            /\ Forall2 (inferred model) seen (fst acc)))
    with (seen := []) in E as (items & [Hids Hvs] & HF).
  - exists items. simpl in Hids, Hvs. auto.
  - intros seen [ws doc_id] [vs ids0] s acc' s' [Hi Hv] Er.
    unfold id, infer_step in Er. cbn [fst snd] in Hi, Hv.
    apply bind_ok in Er as (v & s1 & Ev & Er).
    apply request_ok in Ev as (w' & Ev & _ & _).
    apply ret_ok in Er as [-> _]. cbn [fst snd]. split.
    + rewrite Hi, map_app. reflexivity.
    + apply Forall2_app; [exact Hv | ].
      constructor; [ | constructor ]. exists (world s), w'. exact Ev.
  - split; [reflexivity | constructor].
Qed.

Lemma zip_with_labels {A B} (f : A -> B) (ids : list cell) (data : list A) :
  length data = length ids ->
  map fst (zip_with (fun l v => (l, f v)) ids data) = ids.
Proof.
  revert data. induction ids as [|l ids IH]; intros [|v data] Hlen;
    simpl in *; try discriminate; [reflexivity | ].
  f_equal. apply IH. lia.
Qed.

(** The table of vectors has the ids as its row labels, row by row. *)
Lemma make_wv_df_rows (word_vectors : list (list float)) (ids : list cell) :
  length word_vectors = length ids ->
  exists wv_df,
    make_wv_df word_vectors ids = Ok wv_df
    /\ Pandas.index wv_df = ids
    /\ forall k id v,
         ids !! k = Some id -> word_vectors !! k = Some v ->
         Pandas.rows wv_df !! k
         = Some (id, Pandas.pad (Pandas.width word_vectors) (map CFloat v)).
Proof.
  intros Hlen. unfold make_wv_df, Pandas.DataFrame.
  destruct (decide (length word_vectors = length ids)) as [_|Hne]; [ | contradiction ].
  eexists. split; [reflexivity | ]. split.
  - unfold Pandas.index. cbn [Pandas.rows]. apply zip_with_labels. exact Hlen.
  - intros k id v Hid Hv. cbn [Pandas.rows].
    rewrite lookup_zip_with, Hid, Hv. reflexivity.
Qed.

(** Reading the id at a position finds the row there and its cell in the
    [cord_uid] column. *)
Lemma uid_at_row (k : nat) (id : cell) :
  uid_at (Z.of_nat k) = Ok id ->
  exists label cells p,
    Pandas.rows metadata_with_docs !! k = Some (label, cells)
    /\ Pandas.position (CStr (py "cord_uid")) (Pandas.columns metadata_with_docs) = Some p
    /\ cells !! p = Some id.
Proof.
  unfold uid_at, Pandas.iloc. intros E.
  destruct (Z.ltb_spec (Z.of_nat k) 0) as [Hneg|_]; [lia | ].
  destruct ((0 <=? Z.of_nat k)
            && (Z.of_nat k <? Z.of_nat (length (Pandas.rows metadata_with_docs))));
    [ | discriminate E ].
  rewrite Nat2Z.id in E.
  destruct (Pandas.rows metadata_with_docs !! k) as [[label cells]|];
    [ | discriminate E ].
  cbn [res_bind] in E. unfold Pandas.series_getitem in E.
  cbn [Pandas.labels Pandas.values] in E.
  destruct (Pandas.position _ _) as [p|]; [ | discriminate E ].
  destruct (cells !! p) as [c|] eqn:Hc; [ | discriminate E ].
  injection E as <-. exists label, cells, p. auto.
Qed.

Lemma zip_rows_labels (a b : list (cell * list cell)) :
  map fst a = map fst b ->
  map fst (zip_with (fun ra rb => (fst ra, snd ra ++ snd rb)) a b) = map fst a.
Proof.
  revert b. induction a as [|ra a IH]; intros [|rb b] E; simpl in *;
    try discriminate; [reflexivity | ].
  injection E as _ E. f_equal. apply IH. exact E.
Qed.

(** The positions of the ids are the positions of the rows they came
    from. *)
Lemma ids_rows (n : nat) (ids : list cell) :
  Forall2 (fun i id => uid_at i = Ok id) (Py.range 0 (Z.of_nat n)) ids ->
  length ids = n
  /\ forall k id, ids !! k = Some id -> (k < n)%nat /\ uid_at (Z.of_nat k) = Ok id.
Proof.
  intros U. pose proof (Forall2_length _ _ _ U) as Hlen.
  rewrite range_length in Hlen.
  assert (Hn : length ids = n) by lia. split; [exact Hn | ].
  intros k id Hk.
  assert (Hlt : (k < n)%nat).
  { apply lookup_lt_Some in Hk. lia. }
  split; [exact Hlt | ].
  assert (Hr : Py.range 0 (Z.of_nat n) !! k = Some (0 + Z.of_nat k)).
  { apply range_lookup. lia. }
  destruct (Forall2_lookup_l _ _ _ _ _ U Hr) as (id' & Hid' & Hu).
  rewrite Hk in Hid'. injection Hid' as <-. exact Hu.
Qed.

(** C8.  When the inference pass over N_DOCUMENTS > 0 documents has run to
    the end, the list of vectors and the list of ids have the same length,
    the id at each position is the [cord_uid] of the table row at that
    position, and the vector at that position was inferred from the words
    parsed for that row.  The table of vectors takes the ids as its row
    labels, and the merge puts, in the row labelled with an id, the
    cells of the metadata row whose [cord_uid] is that id next to the
    cells of the vector kept under that id. *)
Theorem vectors_keyed_by_ids (model : Model) (N_DOCUMENTS : Z) st word_vectors ids st' :
  0 < N_DOCUMENTS ->
  infer_all model N_DOCUMENTS st = (Ok (word_vectors, ids), st') ->
  length word_vectors = length ids
  /\ length ids = Z.to_nat N_DOCUMENTS
  /\ (exists items,
         ids = map snd items
         /\ Forall2 parsed (Py.range 0 N_DOCUMENTS) items
         /\ Forall2 (inferred model) items word_vectors)
  /\ exists wv_df merged p,
       make_wv_df word_vectors ids = Ok wv_df
       /\ Pandas.index wv_df = ids
       /\ merge_embeddings N_DOCUMENTS wv_df = Ok merged
       /\ Pandas.index merged = ids
       /\ Pandas.position (CStr (py "cord_uid")) (Pandas.columns metadata_with_docs)
          = Some p
       /\ forall k id,
            ids !! k = Some id ->
            exists label cells v,
              Pandas.rows metadata_with_docs !! k = Some (label, cells)
              /\ cells !! p = Some id
              /\ word_vectors !! k = Some v
              /\ Pandas.rows wv_df !! k
                 = Some (id, Pandas.pad (Pandas.width word_vectors) (map CFloat v))
              /\ Pandas.rows merged !! k
                 = Some (id, delete p cells
                             ++ Pandas.pad (Pandas.width word_vectors) (map CFloat v)).
Proof.
  intros Hpos E.
  apply infer_all_items in E as (items & Hids & HF & HV).
  pose proof (parsed_uids _ _ HF) as U. rewrite <- Hids in U.
  replace N_DOCUMENTS with (Z.of_nat (Z.to_nat N_DOCUMENTS)) in U by lia.
  apply ids_rows in U as [Hn Hrow].
  assert (Hlen : length word_vectors = length ids).
  { apply Forall2_length in HV. rewrite <- HV, Hids, length_map. reflexivity. }
  split; [exact Hlen | ]. split; [exact Hn | ].
  split; [exists items; auto | ].
  destruct (make_wv_df_rows _ _ Hlen) as (wv_df & Hdf & Hidx & Hvrow).
  (* the [cord_uid] column is there: row 0 was read *)
  destruct ids as [|id0 ids']; [simpl in Hn; lia | ].
  destruct (Hrow O id0 eq_refl) as [_ Hu0].
  apply uid_at_row in Hu0 as (l0 & c0 & p & _ & Hp & _).
  set (ids := id0 :: ids') in *.
  (* every id sits in the [cord_uid] cell of the row at its position *)
  assert (Hcell : forall k id, ids !! k = Some id ->
             exists label cells,
               Pandas.rows metadata_with_docs !! k = Some (label, cells)
               /\ cells !! p = Some id).
  { intros k id Hk. destruct (Hrow k id Hk) as [_ Hu].
    apply uid_at_row in Hu as (label & cells & p' & Hr & Hp' & Hc).
    rewrite Hp in Hp'. injection Hp' as <-. eauto. }
  set (reindex := fun r : cell * list cell =>
                    (default CNaN (snd r !! p), delete p (snd r))).
  set (kept := take (Z.to_nat N_DOCUMENTS) (map reindex (Pandas.rows metadata_with_docs))).
  assert (Hkept : forall k id, ids !! k = Some id ->
             exists label cells,
               Pandas.rows metadata_with_docs !! k = Some (label, cells)
               /\ cells !! p = Some id
               /\ kept !! k = Some (id, delete p cells)).
  { intros k id Hk. destruct (Hcell k id Hk) as (label & cells & Hr & Hc).
    exists label, cells. split; [exact Hr | ]. split; [exact Hc | ].
    destruct (Hrow k id Hk) as [Hlt _]. unfold kept.
    rewrite lookup_take_lt by exact Hlt.
    change (map reindex ?l) with (reindex <$> l).
    rewrite list_lookup_fmap, Hr. unfold reindex. cbn. rewrite Hc. reflexivity. }
  assert (Hlabels : map fst kept = ids).
  { change (map fst kept) with (fst <$> kept). apply list_eq. intros k.
    rewrite list_lookup_fmap.
    destruct (ids !! k) as [id|] eqn:Hk.
    - destruct (Hkept k id Hk) as (label & cells & _ & _ & ->). reflexivity.
    - apply lookup_ge_None in Hk. rewrite Hn in Hk.
      unfold kept. rewrite lookup_take_ge by exact Hk. reflexivity. }
  assert (Hmerge : merge_embeddings N_DOCUMENTS wv_df
                   = Ok {| Pandas.columns :=
                             delete p (Pandas.columns metadata_with_docs)
                             ++ Pandas.columns wv_df;
                           Pandas.rows :=
                             zip_with (fun ra rb => (fst ra, snd ra ++ snd rb))
                               kept (Pandas.rows wv_df) |}).
  { unfold merge_embeddings, Pandas.set_index. rewrite Hp. cbn [res_bind].
    unfold Pandas.concat_axis1, Pandas.iloc_to, Pandas.index.
    cbn [Pandas.rows Pandas.columns].
    destruct (Z.ltb_spec N_DOCUMENTS 0) as [Hneg|_]; [lia | ].
    fold reindex. fold kept.
    destruct (decide (map fst kept = map fst (Pandas.rows wv_df))) as [_|Hne];
      [reflexivity | ].
    exfalso. apply Hne. rewrite Hlabels. symmetry. exact Hidx. }
  eexists wv_df, _, p. split; [exact Hdf | ]. split; [exact Hidx | ].
  split; [exact Hmerge | ]. split; [ | split; [exact Hp | ] ].
  - unfold Pandas.index. cbn [Pandas.rows].
    rewrite zip_rows_labels; [exact Hlabels | ].
    rewrite Hlabels. symmetry. exact Hidx.
  - intros k id Hk.
    destruct (Hkept k id Hk) as (label & cells & Hr & Hc & Hkk).
    assert (Hv : exists v, word_vectors !! k = Some v).
    { apply lookup_lt_is_Some. rewrite Hlen. eapply lookup_lt_Some. exact Hk. }
    destruct Hv as [v Hv].
    exists label, cells, v. split; [exact Hr | ]. split; [exact Hc | ].
    split; [exact Hv | ].
    pose proof (Hvrow k id v Hk Hv) as Hw. split; [exact Hw | ].
    cbn [Pandas.rows]. rewrite lookup_zip_with, Hkk, Hw. reflexivity.
Qed.

End PipelineProofs.

(** ** The cell that attaches the cluster labels *)
Section Attach.
Import Namespace.

Lemma position_lookup (key : cell) (l : list cell) (p : nat) :
  Pandas.position key l = Some p -> l !! p = Some key.
Proof.
  revert p. induction l as [|x l IH]; intros p E; simpl in E; [discriminate | ].
  destruct (decide (x = key)) as [->|Hne].
  - injection E as <-. reflexivity.
  - destruct (Pandas.position key l) as [q|]; [ | discriminate ].
    injection E as <-. simpl. apply IH. reflexivity.
Qed.

Lemma position_app_found (key : cell) (l l' : list cell) (p : nat) :
  Pandas.position key l = Some p -> Pandas.position key (l ++ l') = Some p.
Proof.
  revert p. induction l as [|x l IH]; intros p E; simpl in *; [discriminate | ].
  destruct (decide (x = key)); [exact E | ].
  destruct (Pandas.position key l) as [q|]; [ | discriminate ].
  rewrite (IH q eq_refl). exact E.
Qed.

Lemma position_app_new (key key' : cell) (l : list cell) :
  Pandas.position key l = None ->
  Pandas.position key (l ++ [key'])
  = if decide (key' = key) then Some (length l) else None.
Proof.
  induction l as [|x l IH]; intros E; simpl in *.
  - destruct (decide (key' = key)); reflexivity.
  - destruct (decide (x = key)); [discriminate | ].
    destruct (Pandas.position key l) as [q|]; [discriminate | ].
    rewrite (IH eq_refl). destruct (decide (key' = key)); reflexivity.
Qed.

(** [df[key] = vals] with one value per row: the labels of the rows stay,
    the column [key] holds the values, every other column is as before. *)
Lemma setitem_column (df : Pandas.Frame) (key : cell) (vals : list cell) :
  well_formed df ->
  length vals = length (Pandas.rows df) ->
  exists df',
    Pandas.setitem df key vals = Ok df'
    /\ Pandas.index df' = Pandas.index df
    /\ (forall k v, vals !! k = Some v -> Pandas.cell_at df' k key = Some v)
    /\ (forall k key', key' <> key ->
          Pandas.cell_at df' k key' = Pandas.cell_at df k key').
Proof.
  intros Hwf Hlen. unfold Pandas.setitem.
  destruct (decide (length vals = length (Pandas.rows df))) as [_|Hne];
    [ | contradiction ].
  assert (Hidx : forall f : cell * list cell -> cell -> cell * list cell,
             (forall r v, fst (f r v) = fst r) ->
             map fst (zip_with f (Pandas.rows df) vals) = map fst (Pandas.rows df)).
  { intros f Hf. revert Hlen. generalize (Pandas.rows df). clear Hwf.
    intros rs. revert vals. induction rs as [|r rs IH]; intros [|v vals] Hlen;
      simpl in *; try discriminate; [reflexivity | ].
    rewrite Hf. f_equal. apply IH. lia. }
  assert (Hrow : forall k r, Pandas.rows df !! k = Some r ->
             length (snd r) = length (Pandas.columns df)).
  { intros k r Hr. unfold well_formed in Hwf.
    rewrite Forall_lookup in Hwf. exact (Hwf k r Hr). }
  destruct (Pandas.position key (Pandas.columns df)) as [p|] eqn:Hp.
  - eexists. split; [reflexivity | ]. split; [ | split ].
    + unfold Pandas.index. cbn [Pandas.rows]. apply Hidx. reflexivity.
    + intros k v Hv. unfold Pandas.cell_at. cbn [Pandas.rows Pandas.columns].
      rewrite Hp, lookup_zip_with, Hv.
      destruct (Pandas.rows df !! k) as [r|] eqn:Hr.
      * cbn. apply list_lookup_insert_eq. rewrite (Hrow k r Hr).
        apply position_lookup in Hp. eapply lookup_lt_Some. exact Hp.
      * apply lookup_ge_None in Hr. apply lookup_lt_Some in Hv. lia.
    + intros k key' Hne. unfold Pandas.cell_at. cbn [Pandas.rows Pandas.columns].
      rewrite lookup_zip_with.
      destruct (Pandas.rows df !! k) as [r|] eqn:Hr; [ | reflexivity ].
      destruct (vals !! k) as [v|] eqn:Hv.
      * cbn. destruct (Pandas.position key' (Pandas.columns df)) as [q|] eqn:Hq;
          [ | reflexivity ].
        apply list_lookup_insert_ne. intros ->.
        apply position_lookup in Hp, Hq. congruence.
      * apply lookup_ge_None in Hv. apply lookup_lt_Some in Hr. lia.
  - eexists. split; [reflexivity | ]. split; [ | split ].
    + unfold Pandas.index. cbn [Pandas.rows]. apply Hidx. reflexivity.
    + intros k v Hv. unfold Pandas.cell_at. cbn [Pandas.rows Pandas.columns].
      rewrite (position_app_new _ key _ Hp), lookup_zip_with, Hv.
      destruct (decide (key = key)) as [_|Hne]; [ | contradiction ].
      destruct (Pandas.rows df !! k) as [r|] eqn:Hr.
      * cbn. rewrite <- (Hrow k r Hr). apply list_lookup_middle. reflexivity.
      * apply lookup_ge_None in Hr. apply lookup_lt_Some in Hv. lia.
    + intros k key' Hne. unfold Pandas.cell_at. cbn [Pandas.rows Pandas.columns].
      rewrite lookup_zip_with.
      destruct (Pandas.rows df !! k) as [r|] eqn:Hr; [ | reflexivity ].
      destruct (vals !! k) as [v|] eqn:Hv.
      * cbn. destruct (Pandas.position key' (Pandas.columns df)) as [q|] eqn:Hq.
        -- rewrite (position_app_found _ _ _ _ Hq).
           apply lookup_app_l. rewrite (Hrow k r Hr).
           apply position_lookup in Hq. eapply lookup_lt_Some. exact Hq.
        -- rewrite (position_app_new _ key _ Hq).
           destruct (decide (key = key')) as [E|_]; [congruence | reflexivity].
      * apply lookup_ge_None in Hv. apply lookup_lt_Some in Hr. lia.
Qed.

(** C9.  When [metadata_with_embeddings] names a well-formed frame and
    there is one cluster label per row, the cell leaves both names on the
    one object that [metadata_with_embeddings] named before: no new frame
    is made.  That object now has the column [cluster] holding the
    labels; its row labels and the cells of all its other columns, every
    other object, and every other name are as before. *)
Theorem attach_clusters_in_place (clusters : list Z) (s : Store) (l : loc)
    (df : Pandas.Frame) :
  vars s !! "metadata_with_embeddings" = Some l ->
  heap s !! l = Some df ->
  well_formed df ->
  length clusters = length (Pandas.rows df) ->
  exists s' df',
    attach_clusters clusters s = Ok s'
    /\ vars s' !! "metadata_with_clusters" = Some l
    /\ vars s' !! "metadata_with_embeddings" = Some l
    /\ heap s' !! l = Some df'
    /\ read "metadata_with_embeddings" s' = Some df'
    /\ read "metadata_with_clusters" s' = Some df'
    /\ Pandas.index df' = Pandas.index df
    /\ (forall k c, clusters !! k = Some c ->
          Pandas.cell_at df' k (CStr (py "cluster")) = Some (CInt c))
    /\ (forall k key, key <> CStr (py "cluster") ->
          Pandas.cell_at df' k key = Pandas.cell_at df k key)
    /\ (forall l', l' <> l -> heap s' !! l' = heap s !! l')
    /\ (forall x, x <> "metadata_with_clusters" -> vars s' !! x = vars s !! x).
Proof.
  intros Hv Hh Hwf Hlen.
  destruct (setitem_column df (CStr (py "cluster")) (map CInt clusters) Hwf)
    as (df' & Hset & Hidx & Hnew & Hold).
  { rewrite length_map. exact Hlen. }
  exists {| vars := <["metadata_with_clusters" := l]> (vars s);
            heap := <[l := df']> (heap s) |}, df'.
  assert (Hrun : attach_clusters clusters s
                 = Ok {| vars := <["metadata_with_clusters" := l]> (vars s);
                         heap := <[l := df']> (heap s) |}).
  { unfold attach_clusters, assign. rewrite Hv. cbn [res_bind].
    unfold setitem. cbn [vars heap]. rewrite lookup_insert_eq, Hh, Hset.
    reflexivity. }
  assert (Hmwe : <["metadata_with_clusters" := l]> (vars s)
                   !! "metadata_with_embeddings" = Some l).
  { rewrite lookup_insert_ne by discriminate. exact Hv. }
  split; [exact Hrun | ]. cbn [vars heap].
  split; [apply lookup_insert_eq | ]. split; [exact Hmwe | ].
  split; [apply lookup_insert_eq | ].
  split; [unfold read; cbn [vars heap]; rewrite Hmwe; apply lookup_insert_eq | ].
  split; [unfold read; cbn [vars heap]; rewrite lookup_insert_eq;
          apply lookup_insert_eq | ].
  split; [exact Hidx | ].
  split.
  { intros k c Hc. apply Hnew.
    change (map CInt clusters) with (CInt <$> clusters).
    rewrite list_lookup_fmap, Hc. reflexivity. }
  split; [exact Hold | ].
  split.
  - intros l' Hne. apply lookup_insert_ne. congruence.
  - intros x Hne. apply lookup_insert_ne. congruence.
Qed.

End Attach.

(** ** Runs on the concrete world *)
Section Runs.
Import Demo.

Example split_three :
  Py.split (py "a.json; b.json; c.json") (py "; ")
  = [py "a.json"; py "b.json"; py "c.json"].
Proof. reflexivity. Qed.

Example split_no_separator : Py.split (py "a;b") (py "; ") = [py "a;b"].
Proof. reflexivity. Qed.

Example split_empty : Py.split [] (py "; ") = [[]].
Proof. reflexivity. Qed.

Example split_trailing : Py.split (py ";; ") (py "; ") = [py ";"; []].
Proof. reflexivity. Qed.

Example range_0_3 : Py.range 0 3 = [0; 1; 2].
Proof. reflexivity. Qed.

Example range_negative : Py.range 0 (-2) = [].
Proof. reflexivity. Qed.

Example model_filename_500 :
  model_filename 500 = py "covid_embeddings_model_500_docs.w2v".
Proof. vm_compute. reflexivity. Qed.

Example isalpha_examples :
  Py.isalpha (py "virus") = true /\ Py.isalpha (py "al.") = false
  /\ Py.isalpha (py "covid19") = false /\ Py.isalpha [] = false.
Proof. repeat split; reflexivity. Qed.

Example stems :
  stem (py "Others") = py "other" /\ stem (py "spreads") = py "spread"
  /\ stem (py "virus") = py "virus" /\ stem (py "topic") = py "topic".
Proof. repeat split; reflexivity. Qed.

Example parse_first_document :
  fst (parse_document 0 (start true))
  = Ok ([py "virus"; py "spread"], CStr (py "ug7v899j")).
Proof. vm_compute. reflexivity. Qed.

Example capped_examples :
  capped (Some 7) = Ok 7 /\ capped (Some 12) = Ok 12
  /\ capped (Some 19) = Ok 12 /\ capped None = Raise TypeError.
Proof. repeat split; reflexivity. Qed.

(** *** C1 *)

(** C1, as stated, fails: "Others" is alphabetic and is not a stop word,
    so it passes the filter; its stem "other" is emitted, and "other" is
    a stop word. *)
Lemma parse_document_emits_stop_word :
  exists ws id st',
    parse_document 1 (start true) = (Ok (ws, id), st')
    /\ py "other" ∈ ws
    /\ stop_word (py "Others") = false
    /\ stop_word (py "other") = true.
Proof.
  eexists _, _, (snd (parse_document 1 (start true))).
  split; [vm_compute; reflexivity | ].
  split; [ | split; vm_compute; reflexivity ].
  do 2 apply list_elem_of_further. apply list_elem_of_here.
Qed.

Lemma lower_letter_not_punctuation (c : char) :
  Py.alphabetic c = true -> ascii_lower c ∉ Py.punctuation.
Proof.
  unfold Py.alphabetic, Py.is_ascii_letter, ascii_lower.
  change (Py.unicode_letter c) with false.
  destruct (N.ltb_spec c 128) as [_|_]; [ | discriminate ].
  destruct (N.leb_spec 65 c) as [L1|L1]; destruct (N.leb_spec c 90) as [L2|L2];
    destruct (N.leb_spec 97 c) as [L3|L3]; destruct (N.leb_spec c 122) as [L4|L4];
    cbn [andb orb]; intros Hc; try discriminate Hc;
    unfold Py.punctuation; intros Hin;
    repeat (apply elem_of_cons in Hin as [Hin|Hin]; [lia | ]);
    inversion Hin.
Qed.

Lemma not_punctuation_only (r : str) :
  Forall (fun c => c ∉ Py.punctuation) r -> punctuation_only r = false.
Proof.
  destruct r as [|c r]; [reflexivity | ]. intros Hr.
  apply Forall_cons in Hr as [Hc _]. unfold punctuation_only. cbn [forallb].
  rewrite bool_decide_eq_false_2 by exact Hc. reflexivity.
Qed.

(** The stand-in for the stemmer keeps the promise made of the stemmer. *)
Lemma demo_stem_not_punctuation (word : str) :
  Py.isalpha word = true -> punctuation_only (stem word) = false.
Proof.
  intros Ha. apply not_punctuation_only.
  assert (Hlow : Forall (fun c => c ∉ Py.punctuation) (map ascii_lower word)).
  { destruct word as [|c w]; [discriminate | ]. unfold Py.isalpha in Ha.
    rewrite forallb_forall in Ha. apply Forall_forall. intros x Hx.
    apply list_elem_of_In, in_map_iff in Hx as (y & <- & Hy).
    apply lower_letter_not_punctuation, Ha, Hy. }
  change (stem word) with (snowball_step_1a word). unfold snowball_step_1a.
  destruct (rev (map ascii_lower word)) as [|last [|before front]] eqn:Hrev;
    try exact Hlow.
  destruct ((last =? 115)%N && negb (before =? 115)%N && negb (before =? 117)%N
            && existsb is_vowel front); [ | exact Hlow ].
  rewrite Forall_forall in Hlow. apply Forall_forall. intros x Hx.
  apply Hlow. apply list_elem_of_In, in_rev. rewrite Hrev.
  right. apply in_rev, list_elem_of_In. exact Hx.
Qed.

Lemma parse_document_tokens_witness :
  Forall (fun t => punctuation_only t = false /\ token_of 1 t)
    [py "spread"; py "virus"; py "other"; py "spread"; py "topic"].
Proof.
  apply (parse_document_tokens 1 (start true) _ (CStr (py "02tnwd4m"))
           (snd (parse_document 1 (start true))) demo_stem_not_punctuation).
  vm_compute. reflexivity.
Defined.

(** *** C2 *)

Lemma read_file_to_json_retry_once_witness :
  let path := py "/mnt/covid19temp/a.json" in
  (fst (read_file_to_json path (start true)) = Ok (body ["the virus spreads"%string])
   /\ log (snd (read_file_to_json path (start true))) = [EvOpen path])
  /\ (fst (read_file_to_json path (start false)) = Ok (body ["the virus spreads"%string])
      /\ log (snd (read_file_to_json path (start false)))
         = [EvOpen path; EvMountStart; EvOpen path])
  /\ (fst (read_file_to_json (py "/mnt/covid19temp/z.json") (start false))
      = Raise FileNotFoundError).
Proof.
  intros path.
  assert (Hmounted : open_and_load path (world (start true))
                     = (Ok (body ["the virus spreads"%string]), world (start true)))
    by (vm_compute; reflexivity).
  assert (Hunmounted : forall p, open_and_load p (world (start false))
                                 = (Raise FileNotFoundError, world (start false)))
    by (intros p; reflexivity).
  assert (Hrestart : mount_start (world (start false)) = (Ok (), world (start true)))
    by reflexivity.
  assert (Hmissing : open_and_load (py "/mnt/covid19temp/z.json") (world (start true))
                     = (Raise FileNotFoundError, world (start true)))
    by (vm_compute; reflexivity).
  split; [ | split ].
  - rewrite (proj1 (read_file_to_json_retry_once path (start true)) _ _ Hmounted).
    split; reflexivity.
  - rewrite (proj2 (read_file_to_json_retry_once path (start false))
               _ _ _ _ (Hunmounted path) Hrestart Hmounted).
    split; reflexivity.
  - rewrite (proj2 (read_file_to_json_retry_once _ (start false))
               _ _ _ _ (Hunmounted _) Hrestart Hmissing).
    reflexivity.
Defined.

(** *** C6 *)

Lemma load_or_train_spec_witness :
  (fst (load_or_train 3 (start_with_model 3)) = Ok 128
   /\ log (snd (load_or_train 3 (start_with_model 3)))
      = [EvExists (model_filename 3); EvLoad (model_filename 3)])
  /\ (fst (load_or_train 3 (start false)) = Ok 128
      /\ log (snd (load_or_train 3 (start false)))
         = [EvExists (model_filename 3); EvTrain 3 128 10; EvSave (model_filename 3)]).
Proof.
  assert (Hthere : os_path_exists (model_filename 3) (world (start_with_model 3)) = true)
    by (vm_compute; reflexivity).
  assert (Hload : Doc2Vec_load (model_filename 3) (world (start_with_model 3))
                  = (Ok 128, world (start_with_model 3)))
    by (vm_compute; reflexivity).
  assert (Habsent : os_path_exists (model_filename 3) (world (start false)) = false)
    by (vm_compute; reflexivity).
  assert (Htrain : Doc2Vec_init
                     (run_quiet (collect iter_next (generator_of {| n_documents := 3 |})))
                     128 10 (world (start false))
                   = (Ok 128, world (start true)))
    by (vm_compute; reflexivity).
  assert (Hsave : Doc2Vec_save (128 : Z) (model_filename 3) (world (start true))
                  = (Ok (), world (start_with_model 3)))
    by (vm_compute; reflexivity).
  split.
  - rewrite (proj1 (load_or_train_spec 3 (start_with_model 3)) Hthere _ _ Hload).
    split; reflexivity.
  - pose proof (proj2 (load_or_train_spec (Model := Z) 3 (start false)) Habsent
                  _ _ Htrain) as Hrun.
    cbv beta iota in Hrun. rewrite (Hrun _ _ Hsave).
    split; reflexivity.
Defined.

(** *** C7 *)

(** C7, as stated, fails: the table has three rows, and a pass of
    [Corpus(5)] yields three documents and is then broken off by the
    IndexError of [iloc[3]]. *)
Lemma corpus_pass_breaks_off :
  let '(docs, ending, _) :=
    yielded iter_next (generator_of {| n_documents := 5 |}) (start true) in
  length docs = 3%nat /\ ending = Raise IndexError.
Proof. vm_compute. split; reflexivity. Qed.

Lemma corpus_passes_same_ids_witness :
  let pass := collect iter_next (generator_of {| n_documents := 3 |}) in
  exists docs1 st1 docs2 st2,
    pass (start false) = (Ok docs1, st1) /\ pass st1 = (Ok docs2, st2)
    /\ map tags docs1 = map tags docs2
    /\ length docs1 = 3%nat.
Proof.
  intros pass.
  let first := eval vm_compute in (pass (start false)) in
  match first with
  | (Ok ?docs1, ?st1) =>
      let second := eval vm_compute in (pass st1) in
      match second with
      | (Ok ?docs2, ?st2) =>
          assert (E1 : pass (start false) = (Ok docs1, st1))
            by (vm_compute; reflexivity);
          assert (E2 : pass st1 = (Ok docs2, st2))
            by (vm_compute; reflexivity);
          exists docs1, st1, docs2, st2
      end
  end.
  destruct (corpus_passes_same_ids 3 _ _ _ _ _ _ E1 E2) as (Hsame & Hlen & _).
  repeat split; assumption.
Defined.

(** *** C10 *)

Lemma iter_is_wrapped_plain_iter_witness :
  iter_next {| pending := Py.range 1 3 |} (start true)
  = match parse_document 1 (start true) with
    | (Ok item, st') => (Ok (Some (tagged item), {| pending := Py.range (1 + 1) 3 |}), st')
    | (Raise e, st') => (Raise e, st')
    end.
Proof.
  apply (iter_is_wrapped_plain_iter 3 1 (start true)). lia.
Defined.

(** *** C4 *)

(** The stand-in for KMeans keeps the promise made of [labels_]. *)
Lemma demo_kmeans_labels (k : Z) (X : Pandas.Frame) (w : World) ls w' :
  KMeans_fit k X w = (Ok ls, w') ->
  length ls = length (Pandas.rows X) /\ Forall (fun l => 0 <= l < k) ls.
Proof.
  cbv [KMeans_fit sklearn].
  destruct ((0 <? k) && (k <=? Z.of_nat (length (Pandas.rows X)))) eqn:C;
    [ | discriminate ].
  intros E. injection E as <- _.
  apply andb_prop in C as [Hk _]. apply Z.ltb_lt in Hk.
  split.
  - rewrite length_map, length_seq. reflexivity.
  - apply Forall_forall. intros l Hl. apply list_elem_of_In, in_map_iff in Hl.
    destruct Hl as (i & <- & _). apply Z.mod_pos_bound. exact Hk.
Qed.

Lemma cluster_documents_labels_witness :
  exists labels k,
    fst (cluster_documents twenty_vectors (start true)) = Ok labels
    /\ k = 12
    /\ length labels = 20%nat
    /\ Forall (fun l => 0 <= l < k) labels.
Proof.
  destruct (cluster_documents twenty_vectors (start true)) as [r s1] eqn:E.
  assert (Hr : r = fst (cluster_documents twenty_vectors (start true)))
    by (rewrite E; reflexivity).
  vm_compute in Hr. subst r.
  destruct (cluster_documents_labels twenty_vectors (start true) _ _
              demo_kmeans_labels E)
    as (e & k & w1 & w2 & He & Hle & Hgt & _ & _ & _ & Hlen & Hran).
  injection He as <- _.
  eexists _, k. split; [reflexivity | ].
  split; [apply Hgt; reflexivity | ]. split; [exact Hlen | exact Hran].
Defined.

(** *** C8 *)

Lemma vectors_keyed_by_ids_witness :
  exists word_vectors ids,
    fst (infer_all (2 : Z) 3 (start true)) = Ok (word_vectors, ids)
    /\ length word_vectors = length ids
    /\ ids = [CStr (py "ug7v899j"); CStr (py "02tnwd4m"); CStr (py "ejv2xln0")].
Proof.
  destruct (infer_all (2 : Z) 3 (start true)) as [r s1] eqn:E.
  assert (Hr : r = fst (infer_all (2 : Z) 3 (start true)))
    by (rewrite E; reflexivity).
  vm_compute in Hr. subst r.
  assert (Hpos : 0 < 3) by lia.
  destruct (vectors_keyed_by_ids (2 : Z) 3 (start true) _ _ _ Hpos E) as (Hlen & _).
  eexists _, _. split; [reflexivity | ]. split; [exact Hlen | reflexivity].
Defined.

(** *** C9 *)

Lemma attach_clusters_in_place_witness :
  exists s' df',
    Namespace.attach_clusters [4; 11] store = Ok s'
    /\ Namespace.read "metadata_with_embeddings" s' = Some df'
    /\ Namespace.read "metadata_with_clusters" s' = Some df'
    /\ Pandas.cell_at df' 1 (CStr (py "cluster")) = Some (CInt 11)
    /\ Pandas.cell_at df' 1 (CStr (py "title")) = Some (CStr (py "Paper B")).
Proof.
  assert (Hvar : Namespace.vars store !! "metadata_with_embeddings" = Some 1%positive)
    by (vm_compute; reflexivity).
  assert (Hobj : Namespace.heap store !! 1%positive = Some two_rows)
    by (vm_compute; reflexivity).
  assert (Hwf : well_formed two_rows) by (repeat constructor).
  assert (Hlen : length [4; 11] = length (Pandas.rows two_rows)) by reflexivity.
  destruct (attach_clusters_in_place [4; 11] store 1%positive two_rows
              Hvar Hobj Hwf Hlen)
    as (s' & df' & Hrun & _ & _ & _ & Hmwe & Hmwc & _ & Hnew & Hold & _).
  exists s', df'. split; [exact Hrun | ]. split; [exact Hmwe | ].
  split; [exact Hmwc | ]. split.
  - apply Hnew. reflexivity.
  - rewrite Hold by discriminate. vm_compute. reflexivity.
Defined.

End Runs.

(** ** Splitting and joining *)
Section SplitJoin.

Lemma split_scan_pieces (sep : str) (s : str) :
  forall skip cur, exists x rest, Py.split_scan sep skip cur s = x :: rest.
Proof.
  induction s as [|c s IH]; intros skip cur; cbn [Py.split_scan].
  - eauto.
  - destruct skip as [|k]; [ | apply IH ].
    destruct (Py.startswith (c :: s) sep); [eauto | apply IH].
Qed.

Lemma str_join_cons (sep x : str) (pieces : list str) :
  pieces <> [] -> str_join sep (x :: pieces) = x ++ sep ++ str_join sep pieces.
Proof. destruct pieces; [contradiction | reflexivity]. Qed.

Lemma startswith_prefix (s p : str) :
  Py.startswith s p = true -> s = p ++ drop (length p) s.
Proof.
  revert s. induction p as [|a p IH]; intros s Hs; [reflexivity | ].
  destruct s as [|b s]; [discriminate | ]. simpl in Hs.
  apply andb_prop in Hs as [Hab Hrest]. apply N.eqb_eq in Hab. subst b.
  simpl. f_equal. apply IH. exact Hrest.
Qed.

Lemma startswith_length (s p : str) :
  Py.startswith s p = true -> (length p <= length s)%nat.
Proof.
  intros Hs. apply startswith_prefix in Hs.
  rewrite Hs, length_app. lia.
Qed.

Lemma split_scan_join (sep : str) :
  sep <> [] ->
  forall s skip cur,
    (skip <= length s)%nat ->
    str_join sep (Py.split_scan sep skip cur s) = rev cur ++ drop skip s.
Proof.
  intros Hsep. induction s as [|c s IH]; intros skip cur Hskip.
  - simpl in Hskip. replace skip with O by lia.
    simpl. rewrite app_nil_r. reflexivity.
  - destruct skip as [|k].
    + cbn [Py.split_scan drop].
      destruct (Py.startswith (c :: s) sep) eqn:Hst.
      * pose proof (startswith_length _ _ Hst) as Hlen.
        assert (Hk : (length sep - 1 <= length s)%nat) by (simpl in Hlen; lia).
        rewrite str_join_cons.
        2:{ destruct (split_scan_pieces sep s (length sep - 1) []) as (x & r & ->).
            discriminate. }
        rewrite (IH _ [] Hk). simpl rev. rewrite app_nil_l.
        f_equal.
        transitivity (sep ++ drop (length sep) (c :: s));
          [ | symmetry; apply startswith_prefix; exact Hst ].
        f_equal. destruct sep as [|a sep']; [contradiction | ].
        simpl. rewrite Nat.sub_0_r. reflexivity.
      * rewrite (IH 0%nat (c :: cur)) by lia.
        simpl. rewrite <- app_assoc. reflexivity.
    + cbn [Py.split_scan drop]. apply IH. simpl in Hskip. lia.
Qed.

(** X1.  Splitting at a separator that is not empty gives at least one
    piece, and joining the pieces with the separator gives the string
    back. *)
Theorem split_join_round_trip (s sep : str) :
  sep <> [] ->
  Py.split s sep <> [] /\ str_join sep (Py.split s sep) = s.
Proof.
  intros Hsep. unfold Py.split. split.
  - destruct (split_scan_pieces sep s 0 []) as (x & r & ->). discriminate.
  - rewrite split_scan_join by (exact Hsep || lia). reflexivity.
Qed.

Lemma split_scan_free (sep : str) :
  forall s cur,
    free_of sep s -> Py.split_scan sep 0 cur s = [rev cur ++ s].
Proof.
  induction s as [|c s IH]; intros cur Hfree.
  - simpl. rewrite app_nil_r. reflexivity.
  - cbn [Py.split_scan]. rewrite (Hfree O : Py.startswith (c :: s) sep = false).
    rewrite IH.
    + simpl. rewrite <- app_assoc. reflexivity.
    + intros k. exact (Hfree (S k)).
Qed.

(** X2.  A string in which the separator does not occur is its own only
    piece: a cell that names one file is split into that one name. *)
Theorem split_without_separator (s sep : str) :
  free_of sep s -> Py.split s sep = [s].
Proof. intros Hfree. unfold Py.split. apply split_scan_free. exact Hfree. Qed.

End SplitJoin.

(** ** More on Reader *)
Section ReaderMore.
Context {W : Type} `{Py.Unicode} `{Nltk} `{Storage W} `{Globals}.
Implicit Types st : State W.

Lemma iloc_out_of_range (df : Pandas.Frame) (i : Z) :
  i < - Z.of_nat (length (Pandas.rows df)) \/ Z.of_nat (length (Pandas.rows df)) <= i ->
  Pandas.iloc df i = Raise IndexError.
Proof.
  intros Hout. unfold Pandas.iloc.
  destruct (Z.ltb_spec i 0) as [Hneg|Hnn].
  - destruct (Z.leb_spec 0 (i + Z.of_nat (length (Pandas.rows df)))) as [Hge|Hlt];
      [lia | reflexivity].
  - destruct (Z.leb_spec 0 i) as [_|Hlt]; [ | lia ].
    destruct (Z.ltb_spec i (Z.of_nat (length (Pandas.rows df)))) as [Hlt|_];
      [lia | reflexivity].
Qed.

Lemma iloc_negative (df : Pandas.Frame) (i : Z) :
  - Z.of_nat (length (Pandas.rows df)) <= i < 0 ->
  Pandas.iloc df i = Pandas.iloc df (i + Z.of_nat (length (Pandas.rows df))).
Proof.
  intros Hi. unfold Pandas.iloc.
  destruct (Z.ltb_spec i 0) as [_|Hnn]; [ | lia ].
  destruct (Z.ltb_spec (i + Z.of_nat (length (Pandas.rows df))) 0) as [Hneg|_];
    [lia | reflexivity].
Qed.

(** X4.  A document index outside the table, on either side, makes
    [parse_document] raise IndexError at once: nothing is asked of storage
    and the state is as before. *)
Theorem parse_document_out_of_range (i : Z) st :
  i < - Z.of_nat (length (Pandas.rows metadata_with_docs))
  \/ Z.of_nat (length (Pandas.rows metadata_with_docs)) <= i ->
  parse_document i st = (Raise IndexError, st).
Proof.
  intros Hout. unfold parse_document, bind, lift.
  rewrite (iloc_out_of_range _ _ Hout). reflexivity.
Qed.

(** X5.  A negative document index counts from the end of the table:
    [parse_document(i)] for i in [-rows, 0) does what
    [parse_document(i + rows)] does. *)
Theorem parse_document_negative_index (i : Z) st :
  - Z.of_nat (length (Pandas.rows metadata_with_docs)) <= i < 0 ->
  parse_document i st
  = parse_document (i + Z.of_nat (length (Pandas.rows metadata_with_docs))) st.
Proof.
  intros Hi. unfold parse_document. rewrite (iloc_negative _ _ Hi). reflexivity.
Qed.

(** *** The words of a document, in order *)

Lemma sentences_appended (p_sentences : list str) (acc : list str) st :
  for_each (fun p_sentence words => ret (words ++ sentence p_sentence))
    p_sentences acc st
  = (Ok (acc ++ concat (map sentence p_sentences)), st).
Proof.
  revert acc. induction p_sentences as [|p l IH]; intros acc.
  - simpl. rewrite app_nil_r. reflexivity.
  - cbn [for_each]. unfold bind at 1. unfold ret at 1. rewrite IH.
    simpl. rewrite <- app_assoc. reflexivity.
Qed.

Lemma parse_paragraph_appends (paragraph : json) (acc : list str) st acc' st' :
  parse_paragraph paragraph acc st = (Ok acc', st') ->
  exists t, paragraph_tokens paragraph = Ok t /\ acc' = acc ++ t.
Proof.
  unfold parse_paragraph. intros E. run_inv E.
  apply lift_ok in E0 as [Eg ->]. apply lift_ok in E1 as [Es ->].
  rewrite sentences_appended in E. injection E as <- _.
  unfold paragraph_tokens. rewrite Eg. cbn [res_bind]. rewrite Es. cbn [res_bind].
  eauto.
Qed.

Lemma paragraphs_appended (paragraphs : list json) :
  forall (acc : list str) st acc' st',
    for_each parse_paragraph paragraphs acc st = (Ok acc', st') ->
    exists t, paragraphs_tokens paragraphs = Ok t /\ acc' = acc ++ t.
Proof.
  induction paragraphs as [|p l IH]; intros acc st acc' st' E.
  - simpl in E. apply ret_ok in E as [-> _]. exists []. rewrite app_nil_r. auto.
  - cbn [for_each] in E. apply bind_ok in E as (acc1 & s1 & E1 & E2).
    apply parse_paragraph_appends in E1 as (t & Ht & ->).
    apply IH in E2 as (ts & Hts & ->).
    exists (t ++ ts). cbn [paragraphs_tokens]. rewrite Ht. cbn [res_bind].
    rewrite Hts. cbn [res_bind]. rewrite app_assoc. auto.
Qed.

Lemma parse_file_appends (filename : str) (acc : list str) st acc' st' :
  parse_file filename acc st = (Ok acc', st') ->
  exists data t,
    read_as filename data /\ data_tokens data = Ok t /\ acc' = acc ++ t.
Proof.
  unfold parse_file. intros E. run_inv E.
  apply read_file_to_json_ok in E0 as [Hread _].
  apply lift_ok in E1 as [Hb ->]. apply lift_ok in E2 as [Hi ->].
  apply paragraphs_appended in E as (t & Ht & ->).
  exists a, t. split; [exact Hread | ]. split; [ | reflexivity ].
  unfold data_tokens. rewrite Hb. cbn [res_bind]. rewrite Hi. exact Ht.
Qed.

Lemma files_appended (filenames : list str) :
  forall (acc : list str) st acc' st',
    for_each parse_file filenames acc st = (Ok acc', st') ->
    exists datas toks,
      Forall2 read_as filenames datas
      /\ Forall2 (fun data t => data_tokens data = Ok t) datas toks
      /\ acc' = acc ++ concat toks.
Proof.
  induction filenames as [|f l IH]; intros acc st acc' st' E.
  - simpl in E. apply ret_ok in E as [-> _]. exists [], [].
    simpl. rewrite app_nil_r. repeat split; constructor.
  - cbn [for_each] in E. apply bind_ok in E as (acc1 & s1 & E1 & E2).
    apply parse_file_appends in E1 as (data & t & Hr & Ht & ->).
    apply IH in E2 as (datas & toks & HR & HT & ->).
    exists (data :: datas), (t :: toks). simpl. rewrite app_assoc.
    repeat split; try constructor; assumption.
Qed.

(** X6.  The words that [parse_document] returns are the tokens of the
    files named for the article, file after file in the order of the
    names, and within a file paragraph after paragraph and sentence after
    sentence: nothing is reordered, dropped or added between the loops. *)
Theorem parse_document_words_in_order (i : Z) st ws id st' :
  parse_document i st = (Ok (ws, id), st') ->
  exists filenames datas toks,
    filenames_of i = Ok filenames
    /\ Forall2 read_as filenames datas
    /\ Forall2 (fun data t => data_tokens data = Ok t) datas toks
    /\ ws = concat toks.
Proof.
  intros E. apply parse_document_ok in E as (filenames & Hf & E & _).
  apply files_appended in E as (datas & toks & HR & HT & ->).
  exists filenames, datas, toks. auto.
Qed.

End ReaderMore.

(** ** What is asked of the outside world *)
Section Requests.
Context {W : Type} `{Py.Unicode} `{Nltk} `{Storage W} `{Globals}.
Implicit Types st : State W.

Lemma logs_only_ret {A} (P : event -> Prop) (a : A) : logs_only P (ret (W := W) a).
Proof. intros st. exists []. rewrite app_nil_r. split; [reflexivity | constructor]. Qed.

Lemma logs_only_lift {A} (P : event -> Prop) (r : Res A) : logs_only P (lift (W := W) r).
Proof. intros st. exists []. rewrite app_nil_r. split; [reflexivity | constructor]. Qed.

Lemma logs_only_request {A} (P : event -> Prop) (ev : event) (op : W -> Res A * W) :
  P ev -> logs_only P (request ev op).
Proof.
  intros HP st. exists [ev]. rewrite request_log.
  split; [reflexivity | repeat constructor; exact HP].
Qed.

Lemma logs_only_bind {A B} (P : event -> Prop) (m : M W A) (k : A -> M W B) :
  logs_only P m ->
  (forall a st st', m st = (Ok a, st') -> logs_only P (k a)) ->
  logs_only P (bind m k).
Proof.
  intros Hm Hk st. unfold bind. destruct (Hm st) as (evs1 & L1 & P1).
  destruct (m st) as [[a|e] s1] eqn:E; cbn [snd] in L1.
  - destruct (Hk a st s1 E s1) as (evs2 & L2 & P2).
    exists (evs1 ++ evs2). rewrite L2, L1, app_assoc.
    split; [reflexivity | apply Forall_app; auto].
  - exists evs1. auto.
Qed.

Lemma logs_only_try {A} (P : event -> Prop) (body handler : M W A) (e : exn) :
  logs_only P body -> logs_only P handler -> logs_only P (try_except body e handler).
Proof.
  intros Hb Hh st. unfold try_except. destruct (Hb st) as (evs1 & L1 & P1).
  destruct (body st) as [[a|e'] s1]; cbn [snd] in L1; [exists evs1; auto | ].
  destruct (decide (e' = e)); [ | exists evs1; auto ].
  destruct (Hh s1) as (evs2 & L2 & P2).
  exists (evs1 ++ evs2). rewrite L2, L1, app_assoc.
  split; [reflexivity | apply Forall_app; auto].
Qed.

Lemma logs_only_for_each {A B} (P : event -> Prop) (body : A -> B -> M W B) l :
  (forall x acc, x ∈ l -> logs_only P (body x acc)) ->
  forall acc, logs_only P (for_each body l acc).
Proof.
  induction l as [|x l IH]; intros Hbody acc.
  - apply logs_only_ret.
  - cbn [for_each]. apply logs_only_bind.
    + apply Hbody. now left.
    + intros acc' _ _ _. apply IH. intros y a Hy. apply Hbody. now right.
Qed.

Lemma read_file_to_json_logs (P : event -> Prop) (filepath : str) :
  P (EvOpen filepath) -> P EvMountStart -> logs_only P (read_file_to_json filepath).
Proof.
  intros Ho Hm. unfold read_file_to_json, open_json, mount_restart.
  apply logs_only_try; [apply logs_only_request; exact Ho | ].
  apply logs_only_bind; [apply logs_only_request; exact Hm | ].
  intros _ _ _ _. apply logs_only_request. exact Ho.
Qed.

Lemma parse_paragraph_logs (P : event -> Prop) (paragraph : json) acc :
  logs_only P (parse_paragraph (W := W) paragraph acc).
Proof.
  unfold parse_paragraph.
  apply logs_only_bind; [apply logs_only_lift | intros ptext _ _ _ ].
  apply logs_only_bind; [apply logs_only_lift | intros p_sentences _ _ _ ].
  apply logs_only_for_each. intros p w _. apply logs_only_ret.
Qed.

Lemma parse_file_logs (P : event -> Prop) (filename : str) acc :
  P (EvOpen (covid_dirpath ++ py "/" ++ filename)) -> P EvMountStart ->
  logs_only P (parse_file filename acc).
Proof.
  intros Ho Hm. unfold parse_file.
  apply logs_only_bind; [apply read_file_to_json_logs; assumption | intros data _ _ _ ].
  apply logs_only_bind; [apply logs_only_lift | intros text _ _ _ ].
  apply logs_only_bind; [apply logs_only_lift | intros paragraphs _ _ _ ].
  apply logs_only_for_each. intros p w _. apply parse_paragraph_logs.
Qed.

(** Whatever [parse_document] does, it asks only for opens of the files of
    the article and for restarts of the mount. *)
Lemma parse_document_logs (i : Z) : logs_only (reader_event i) (parse_document i).
Proof.
  unfold parse_document.
  apply logs_only_bind; [apply logs_only_lift | intros document s0 s0' Ed ].
  apply lift_ok in Ed as [Ed _].
  apply logs_only_bind; [apply logs_only_lift | intros files s1 s1' Ef ].
  apply lift_ok in Ef as [Ef _].
  apply logs_only_bind; [apply logs_only_lift | intros filenames s2 s2' Es ].
  apply lift_ok in Es as [Es _].
  assert (Hf : filenames_of i = Ok filenames).
  { unfold filenames_of. rewrite Ed. cbn [res_bind]. rewrite Ef. exact Es. }
  apply logs_only_bind.
  - apply logs_only_for_each. intros f acc Hin. apply parse_file_logs.
    + right. exists filenames, f. auto.
    + left. reflexivity.
  - intros ws _ _ _.
    apply logs_only_bind; [apply logs_only_lift | intros uid _ _ _ ].
    apply logs_only_ret.
Qed.

(** X7.  Whether it returns or raises, [parse_document] only adds to the
    log, and what it adds are requests to open files listed for the
    article and restarts of the mount: it never asks for anything else. *)
Theorem parse_document_requests (i : Z) st :
  exists evs,
    log (snd (parse_document i st)) = log st ++ evs
    /\ Forall (fun ev => ev = EvMountStart \/ opens_of i ev) evs.
Proof. exact (parse_document_logs i st). Qed.

Lemma reader_events_no_inference (i : Z) (evs : list event) :
  Forall (reader_event i) evs -> inference_requests evs = [].
Proof.
  induction 1 as [|ev evs Hev _ IH]; [reflexivity | ].
  unfold inference_requests in *. simpl. rewrite IH.
  destruct Hev as [->|(fs & f & _ & _ & ->)]; reflexivity.
Qed.

(** *** A pass that is broken off *)

Lemma run_pass_step {A} (next : Generator -> M W (option A * Generator)) fuel g st :
  run_pass next (S fuel) g st
  = match next g st with
    | (Ok (Some x, g'), st') =>
        let '(xs, r, st'') := run_pass next fuel g' st' in (x :: xs, r, st'')
    | (Ok (None, _), st') => ([], Ok (), st')
    | (Raise e, st') => ([], Raise e, st')
    end.
Proof. reflexivity. Qed.

Lemma run_pass_prefix {A} (wrap : list str * cell -> A) l :
  forall st docs ending st',
    run_pass (gen_next wrap) (S (length l)) {| pending := l |} st = (docs, ending, st') ->
    exists items,
      docs = map wrap items
      /\ Forall2 parsed (take (length items) l) items
      /\ (ending = Ok () -> length items = length l)
      /\ (forall e, ending = Raise e ->
            exists i s s', l !! length items = Some i
                           /\ parse_document i s = (Raise e, s')).
Proof.
  induction l as [|i l IH]; intros st docs ending st' E.
  - cbn in E. injection E as <- <- _. exists []. simpl.
    repeat split; [constructor | discriminate].
  - change (S (length (i :: l))) with (S (S (length l))) in E.
    rewrite run_pass_step in E. unfold gen_next at 1 in E. cbn [pending] in E.
    unfold bind, ret in E.
    destruct (parse_document i st) as [[item|e] s1] eqn:Ep.
    + destruct (run_pass (gen_next wrap) (S (length l)) {| pending := l |} s1)
        as [[xs r] s2] eqn:Er.
      injection E as <- <- _.
      apply IH in Er as (items & -> & HF & Hok & Hbad).
      exists (item :: items). simpl. split; [reflexivity | ].
      split; [constructor; [exists st, s1; exact Ep | exact HF] | ].
      split; [intros Hr; f_equal; auto | exact Hbad].
    + injection E as <- <- _. exists []. simpl.
      split; [reflexivity | ]. split; [constructor | ].
      split; [discriminate | ].
      intros e' He. injection He as <-. exists i, st, s1. auto.
Qed.

(** X8.  However a pass of [Corpus(n).__iter__] ends, the documents it has
    yielded carry the ids of the first rows of the table, in order.  A pass
    that ends normally has yielded n documents; a pass that is broken off
    by an exception has yielded fewer, and the exception is the one that
    [parse_document] raised for the next index. *)
Theorem yielded_ids_prefix (n : Z) st docs ending st' :
  yielded iter_next (generator_of {| n_documents := n |}) st = (docs, ending, st') ->
  Forall2 (fun i d => exists id, uid_at i = Ok id /\ tags d = Scalar id)
    (take (length docs) (Py.range 0 n)) docs
  /\ (ending = Ok () -> length docs = Z.to_nat n)
  /\ (forall e, ending = Raise e ->
        (length docs < Z.to_nat n)%nat
        /\ exists s s', parse_document (Z.of_nat (length docs)) s = (Raise e, s')).
Proof.
  unfold yielded, generator_of. cbn [pending n_documents]. intros E.
  rewrite (run_pass_ext _ _ iter_next_gen) in E.
  apply run_pass_prefix in E as (items & -> & HF & Hok & Hbad).
  rewrite length_map. split; [ | split ].
  - revert HF. generalize (take (length items) (Py.range 0 n)). clear.
    intros l HF. induction HF as [|i item l items Hp _ IH]; simpl; constructor.
    + exists (snd item). split; [apply parsed_uid; exact Hp | reflexivity].
    + exact IH.
  - intros Hr. rewrite (Hok Hr), range_length. f_equal. lia.
  - intros e He. destruct (Hbad e He) as (i & s & s' & Hi & Ep).
    assert (Hlt : (length items < Z.to_nat (n - 0))%nat).
    { apply lookup_lt_Some in Hi. rewrite range_length in Hi. exact Hi. }
    rewrite range_lookup in Hi by exact Hlt. injection Hi as <-.
    split; [lia | ]. exists s, s'. exact Ep.
Qed.

End Requests.

(** ** The preview cell and the reader *)
Section PreviewPath.
Context {W : Type} `{Py.Unicode} `{Nltk} `{Storage W} `{Globals}.
Implicit Types st : State W.

Lemma asks_first_request {A} (P : event -> Prop) (ev : event) (op : W -> Res A * W) :
  asks_first ev P (request ev op).
Proof.
  intros st. exists []. rewrite request_log. split; [reflexivity | constructor].
Qed.

Lemma asks_first_try {A} (P : event -> Prop) (ev : event) (body handler : M W A)
    (e : exn) :
  asks_first ev P body -> logs_only P handler ->
  asks_first ev P (try_except body e handler).
Proof.
  intros Hb Hh st. unfold try_except. destruct (Hb st) as (evs1 & L1 & P1).
  destruct (body st) as [[a|e'] s1]; cbn [snd] in L1; [exists evs1; auto | ].
  destruct (decide (e' = e)); [ | exists evs1; auto ].
  destruct (Hh s1) as (evs2 & L2 & P2).
  exists (evs1 ++ evs2). rewrite L2, L1, <- app_assoc.
  split; [reflexivity | apply Forall_app; auto].
Qed.

Lemma asks_first_bind {A B} (P : event -> Prop) (ev : event) (m : M W A)
    (k : A -> M W B) :
  asks_first ev P m -> (forall a, logs_only P (k a)) -> asks_first ev P (bind m k).
Proof.
  intros Hm Hk st. unfold bind. destruct (Hm st) as (evs1 & L1 & P1).
  destruct (m st) as [[a|e] s1]; cbn [snd] in L1; [ | exists evs1; auto ].
  destruct (Hk a s1) as (evs2 & L2 & P2).
  exists (evs1 ++ evs2). rewrite L2, L1, <- app_assoc.
  split; [reflexivity | apply Forall_app; auto].
Qed.

(** Reading a file begins by asking to open it, and asks for nothing but
    opens of it and restarts of the mount. *)
Lemma read_file_to_json_asks_first (filepath : str) :
  asks_first (EvOpen filepath)
    (fun ev => ev = EvOpen filepath \/ ev = EvMountStart)
    (read_file_to_json filepath).
Proof.
  unfold read_file_to_json, open_json, mount_restart.
  apply asks_first_try; [apply asks_first_request | ].
  apply logs_only_bind; [apply logs_only_request; now right | ].
  intros _ _ _ _. apply logs_only_request. now left.
Qed.

(** X3.  For an article that names one file, by a relative name, under a
    data directory that is not empty and does not end with a slash, the
    path that the preview cell builds with [os.path.join] is the path that
    [parse_document] opens for the article: whatever the state and however
    it ends, the first thing [parse_document] asks for is to open that
    path, and all it asks for afterwards is to open it again or to restart
    the mount. *)
Theorem preview_path_is_parsed_path (i : Z) (document : Pandas.Series) (f : str) :
  Pandas.iloc metadata_with_docs i = Ok document ->
  Pandas.series_getitem document (CStr (py "pdf_json_files")) = Ok (CStr f) ->
  free_of (py "; ") f ->
  Py.startswith f (py "/") = false ->
  covid_dirpath <> [] ->
  Py.startswith (rev covid_dirpath) (py "/") = false ->
  exists path,
    preview_filepath i = Ok path
    /\ path = covid_dirpath ++ py "/" ++ f
    /\ filenames_of i = Ok [f]
    /\ forall st,
         exists evs,
           log (snd (parse_document i st)) = log st ++ EvOpen path :: evs
           /\ Forall (fun ev => ev = EvOpen path \/ ev = EvMountStart) evs.
Proof.
  intros Hrow Hcell Hfree Hrel Hdir Hslash.
  exists (covid_dirpath ++ py "/" ++ f).
  split; [ | split; [reflexivity | split] ].
  - unfold preview_filepath. rewrite Hrow. cbn [res_bind]. rewrite Hcell.
    cbn [res_bind]. unfold os_path_join. rewrite Hrel, Hslash.
    rewrite bool_decide_eq_false_2 by exact Hdir. reflexivity.
  - unfold filenames_of. rewrite Hrow. cbn [res_bind]. rewrite Hcell.
    cbn [res_bind cell_split]. unfold Py.split.
    rewrite split_scan_free by exact Hfree. reflexivity.
  - set (path := covid_dirpath ++ py "/" ++ f).
    set (P := fun ev => ev = EvOpen path \/ ev = EvMountStart).
    assert (Hrun : forall st,
               parse_document i st
               = (let! ws := for_each parse_file [f] [] in
                  let! cord_uid :=
                    lift (Pandas.series_getitem document (CStr (py "cord_uid"))) in
                  ret (ws, cord_uid)) st).
    { intros st. unfold parse_document. unfold bind at 1 2 3, lift at 1 2 3.
      rewrite Hrow, Hcell. cbn [cell_split]. unfold Py.split.
      rewrite split_scan_free by exact Hfree. reflexivity. }
    assert (Hfirst : asks_first (EvOpen path) P
                       (let! ws := for_each parse_file [f] [] in
                        let! cord_uid :=
                          lift (W := W)
                            (Pandas.series_getitem document (CStr (py "cord_uid"))) in
                        ret (ws, cord_uid))).
    { apply asks_first_bind.
      - cbn [for_each]. apply asks_first_bind; [ | intros acc; apply logs_only_ret ].
        unfold parse_file. apply asks_first_bind.
        + apply read_file_to_json_asks_first.
        + intros data.
          apply logs_only_bind; [apply logs_only_lift | intros text _ _ _ ].
          apply logs_only_bind; [apply logs_only_lift | intros paragraphs _ _ _ ].
          apply logs_only_for_each. intros p w _. apply parse_paragraph_logs.
      - intros ws.
        apply logs_only_bind; [apply logs_only_lift | intros uid _ _ _ ].
        apply logs_only_ret. }
    intros st. rewrite Hrun. apply Hfirst.
Qed.

End PreviewPath.

(** ** More on the pipeline cells *)
Section PipelineMore.
Context {W Model : Type}
  `{Py.Unicode} `{Nltk} `{Storage W} `{Globals} `{Gensim W Model} `{Sklearn W}.
Implicit Types st : State W.

Lemma infer_loop_requests (model : Model) l :
  forall acc st r st',
    for_each (fun i acc => let! item := parse_document i in
                           infer_step model (id item) acc) l acc st
    = (Ok r, st') ->
    exists evs items vectors,
      log st' = log st ++ evs
      /\ inference_requests evs = map (fun item => EvInfer (fst item)) items
      /\ snd r = snd acc ++ map snd items
      /\ fst r = fst acc ++ vectors
      /\ Forall2 parsed l items
      /\ Forall2 (inferred model) items vectors.
Proof.
  induction l as [|i l IH]; intros acc st r st' E.
  - simpl in E. apply ret_ok in E as [-> ->]. exists [], [], [].
    rewrite !app_nil_r. repeat split; constructor.
  - cbn [for_each] in E. apply bind_ok in E as (acc1 & s2 & E1 & E2).
    apply bind_ok in E1 as ([ws doc_id] & s1 & Ep & Ei).
    destruct (parse_document_logs i st) as (evs1 & L1 & P1).
    rewrite Ep in L1. cbn [snd] in L1.
    destruct acc as [vs ids]. unfold id, infer_step in Ei.
    apply bind_ok in Ei as (v & s1' & Ev & Er).
    apply request_ok in Ev as (w' & Hv & _ & Lv).
    apply ret_ok in Er as [-> ->].
    apply IH in E2 as (evs2 & items & vectors & L2 & I2 & S2 & V2 & HP & HI).
    exists (evs1 ++ [EvInfer ws] ++ evs2), ((ws, doc_id) :: items), (v :: vectors).
    split; [rewrite L2, Lv, L1, <- !app_assoc; reflexivity | ].
    split.
    { unfold inference_requests in *. rewrite !List.filter_app, I2.
      fold (inference_requests evs1).
      rewrite (reader_events_no_inference i evs1 P1). reflexivity. }
    split; [rewrite S2; cbn [snd map]; rewrite <- app_assoc; reflexivity | ].
    split; [rewrite V2; cbn [fst]; rewrite <- app_assoc; reflexivity | ].
    split; constructor; try assumption.
    + exists st, s1. exact Ep.
    + exists (world s1), w'. exact Hv.
Qed.

(** X9.  An inference pass that runs to the end has asked for exactly one
    inference per document, in the order of the documents: the documents
    are those that [parse_document] returned for the indices 0, ..., n-1,
    the words of each request are the words parsed for its document, the
    vector kept at its position is what [infer_vector] returned for those
    words, and the ids collected are the ids of these documents. *)
Theorem infer_all_requests (model : Model) (N_DOCUMENTS : Z) st word_vectors ids st' :
  infer_all model N_DOCUMENTS st = (Ok (word_vectors, ids), st') ->
  exists evs items,
    log st' = log st ++ evs
    /\ Forall2 parsed (Py.range 0 N_DOCUMENTS) items
    /\ inference_requests evs = map (fun item => EvInfer (fst item)) items
    /\ Forall2 (inferred model) items word_vectors
    /\ map snd items = ids
    /\ length items = Z.to_nat N_DOCUMENTS.
Proof.
  unfold infer_all, for_loop, generator_of. cbn [pending n_documents]. intros E.
  rewrite (for_in_ext _ _ _ plain_iter_next_gen), for_in_enough_fuel in E.
  apply infer_loop_requests in E
    as (evs & items & vectors & L & I & S & V & HP & HI).
  cbn [fst snd] in S, V. rewrite app_nil_l in S, V. subst.
  exists evs, items. repeat split; auto.
  apply Forall2_length in HP. rewrite range_length in HP.
  rewrite <- HP. f_equal. lia.
Qed.

(** X10.  When the elbow search finds no elbow, [elbow_value_] is None and
    comparing it with 12 raises TypeError: the cell ends there, and KMeans
    is never fitted. *)
Theorem cluster_documents_no_elbow (wv_df : Pandas.Frame) st w1 :
  KElbowVisualizer_fit (3, 20) wv_df (world st) = (Ok None, w1) ->
  cluster_documents wv_df st
  = (Raise TypeError, {| world := w1; log := log st ++ [EvElbow 3 20] |}).
Proof.
  intros E. unfold cluster_documents, bind.
  rewrite (request_run _ _ _ _ _ E). reflexivity.
Qed.

End PipelineMore.

(** ** More on names and frames *)
Section FramesMore.
Import Namespace.

Lemma setitem_again (df df' : Pandas.Frame) (key : cell) (vals : list cell) :
  well_formed df ->
  Pandas.setitem df key vals = Ok df' ->
  Pandas.setitem df' key vals = Ok df'.
Proof.
  intros Hwf. unfold Pandas.setitem at 1.
  destruct (decide (length vals = length (Pandas.rows df))) as [Hlen|]; [ | discriminate ].
  assert (Hz : forall (f g : cell * list cell -> cell -> cell * list cell),
             (forall r v, r ∈ Pandas.rows df -> g (f r v) v = f r v) ->
             zip_with g (zip_with f (Pandas.rows df) vals) vals
             = zip_with f (Pandas.rows df) vals).
  { intros f g Hfg. revert Hlen Hfg. generalize (Pandas.rows df). clear.
    intros rs. revert vals. induction rs as [|r rs IH]; intros [|v vals] Hlen Hfg;
      simpl in *; try discriminate; [reflexivity | ].
    rewrite Hfg by now left. f_equal. apply IH; [lia | ].
    intros r' v' Hr'. apply Hfg. now right. }
  assert (Hrow : forall r, r ∈ Pandas.rows df ->
             length (snd r) = length (Pandas.columns df)).
  { intros r Hr. unfold well_formed in Hwf. rewrite Forall_forall in Hwf.
    apply Hwf. exact Hr. }
  destruct (Pandas.position key (Pandas.columns df)) as [p|] eqn:Hp;
    intros E; injection E as <-; unfold Pandas.setitem; cbn [Pandas.rows Pandas.columns].
  - rewrite length_zip_with_l_eq by (symmetry; exact Hlen).
    destruct (decide (length vals = length (Pandas.rows df))) as [_|]; [ | contradiction ].
    rewrite Hp. f_equal. f_equal. apply Hz. intros r v _. cbn [fst snd].
    rewrite list_insert_insert_eq. reflexivity.
  - rewrite length_zip_with_l_eq by (symmetry; exact Hlen).
    destruct (decide (length vals = length (Pandas.rows df))) as [_|]; [ | contradiction ].
    rewrite (position_app_new _ key _ Hp).
    destruct (decide (key = key)) as [_|]; [ | contradiction ].
    f_equal. f_equal. apply Hz. intros r v Hr. cbn [fst snd]. f_equal.
    apply list_insert_id. rewrite <- (Hrow r Hr).
    apply list_lookup_middle. reflexivity.
Qed.

(** X12.  Running the cell that attaches the cluster labels a second time
    with the same labels changes nothing: the [cluster] column is written
    over where it is, not added again, and both names still name the one
    frame. *)
Theorem attach_clusters_twice (clusters : list Z) (s : Store) (l : loc)
    (df : Pandas.Frame) :
  vars s !! "metadata_with_embeddings" = Some l ->
  heap s !! l = Some df ->
  well_formed df ->
  length clusters = length (Pandas.rows df) ->
  exists s1,
    attach_clusters clusters s = Ok s1
    /\ attach_clusters clusters s1 = Ok s1.
Proof.
  intros Hv Hh Hwf Hlen.
  destruct (Pandas.setitem df (CStr (py "cluster")) (map CInt clusters))
    as [df'|e] eqn:Hset.
  2:{ unfold Pandas.setitem in Hset. rewrite length_map in Hset.
      destruct (decide (length clusters = length (Pandas.rows df))); [ | contradiction ].
      destruct (Pandas.position _ _); discriminate. }
  pose proof (setitem_again _ _ _ _ Hwf Hset) as Hagain.
  exists {| vars := <["metadata_with_clusters" := l]> (vars s);
            heap := <[l := df']> (heap s) |}.
  split.
  - unfold attach_clusters, assign. rewrite Hv. cbn [res_bind].
    unfold setitem. cbn [vars heap]. rewrite lookup_insert_eq, Hh, Hset.
    reflexivity.
  - unfold attach_clusters, assign. cbn [vars heap].
    rewrite lookup_insert_ne by discriminate. rewrite Hv. cbn [res_bind].
    unfold setitem. cbn [vars heap].
    rewrite !lookup_insert_eq, Hagain. cbn [res_bind].
    rewrite !insert_insert_eq. reflexivity.
Qed.


End FramesMore.

(** ** The filter on articles with files, and the columns left for AutoML *)
Section Tables.

Lemma select_filter {A B} (f : B -> bool) (g : A -> B) (rs : list A) :
  map fst (List.filter snd (zip rs (map f (map g rs))))
  = List.filter (fun r => f (g r)) rs.
Proof.
  induction rs as [|r rs IH]; [reflexivity | ].
  simpl. destruct (f (g r)); simpl; rewrite IH; reflexivity.
Qed.

Lemma filter_is_sublist {A} (f : A -> bool) (l : list A) :
  sublist (List.filter f l) l.
Proof.
  induction l as [|x l IH]; simpl; [constructor | ].
  destruct (f x); [apply sublist_skip | apply sublist_cons]; exact IH.
Qed.

(** X14.  The filter keeps, in their order and with their labels, the rows
    whose [pdf_json_files] cell is not NaN, and only those.  When that
    column holds strings where it is not NaN, every position of the
    filtered table then has a list of file names, never an empty one, so
    that [parse_document] gets as far as reading files at every position
    inside the table. *)
Theorem with_docs_have_files (metadata filtered : Pandas.Frame) (dir : str) :
  Frames.with_docs metadata = Ok filtered ->
  (forall r p c,
      r ∈ Pandas.rows metadata ->
      Pandas.position (CStr (py "pdf_json_files")) (Pandas.columns metadata) = Some p ->
      snd r !! p = Some c -> c = CNaN \/ exists s, c = CStr s) ->
  Pandas.columns filtered = Pandas.columns metadata
  /\ sublist (Pandas.rows filtered) (Pandas.rows metadata)
  /\ (forall r, r ∈ Pandas.rows metadata ->
        (r ∈ Pandas.rows filtered
         <-> Pandas.series_getitem
               {| Pandas.name := fst r; Pandas.labels := Pandas.columns metadata;
                  Pandas.values := snd r |} (CStr (py "pdf_json_files"))
             <> Ok CNaN
             /\ Pandas.series_getitem
                  {| Pandas.name := fst r; Pandas.labels := Pandas.columns metadata;
                     Pandas.values := snd r |} (CStr (py "pdf_json_files"))
                <> Raise KeyError))
  /\ forall i,
       0 <= i < Z.of_nat (length (Pandas.rows filtered)) ->
       exists filenames,
         @filenames_of {| metadata_with_docs := filtered; covid_dirpath := dir |} i
         = Ok filenames
         /\ filenames <> [].
Proof.
  unfold Frames.with_docs, Frames.column. intros E Hstr.
  destruct (Pandas.position (CStr (py "pdf_json_files")) (Pandas.columns metadata))
    as [p|] eqn:Hp; [ | discriminate ].
  cbn [res_bind] in E. injection E as <-.
  unfold Frames.select. cbn [Pandas.columns Pandas.rows].
  rewrite select_filter.
  set (has_files := fun r : cell * list cell =>
                      Bool.eqb (Frames.isna (default CNaN (snd r !! p))) false).
  assert (Hkept : forall r, r ∈ List.filter has_files (Pandas.rows metadata) ->
             r ∈ Pandas.rows metadata /\ exists s, snd r !! p = Some (CStr s)).
  { intros r Hr. apply list_elem_of_In, filter_In in Hr as [Hin Hf].
    apply list_elem_of_In in Hin. split; [exact Hin | ].
    unfold has_files in Hf. destruct (snd r !! p) as [c|] eqn:Hc; [ | discriminate ].
    destruct (Hstr r p c Hin eq_refl Hc) as [->|[s ->]]; [discriminate | eauto]. }
  split; [reflexivity | ]. split; [apply filter_is_sublist | ]. split.
  - intros r Hin. unfold Pandas.series_getitem. cbn [Pandas.labels Pandas.values].
    rewrite Hp. split.
    + intros Hr. destruct (Hkept r Hr) as [_ [s ->]]. split; discriminate.
    + intros [Hnan Hkey]. apply list_elem_of_In, filter_In.
      split; [apply list_elem_of_In; exact Hin | ].
      unfold has_files. destruct (snd r !! p) as [c|]; [ | contradiction ].
      destruct c; try reflexivity. contradiction.
  - intros i Hi. unfold filenames_of. cbn [metadata_with_docs].
    unfold Pandas.iloc. cbn [Pandas.rows Pandas.columns].
    destruct (Z.ltb_spec i 0) as [Hneg|_]; [lia | ].
    destruct (Z.leb_spec 0 i) as [_|Hneg]; [ | lia ].
    destruct (Z.ltb_spec i
                (Z.of_nat (length (List.filter has_files (Pandas.rows metadata)))))
      as [_|Hge]; [ | lia ].
    cbn [andb].
    destruct (List.filter has_files (Pandas.rows metadata) !! Z.to_nat i)
      as [[label cells]|] eqn:Hrow.
    2:{ apply lookup_ge_None in Hrow. lia. }
    apply list_elem_of_lookup_2 in Hrow. destruct (Hkept _ Hrow) as [_ [s Hs]].
    cbn [snd] in Hs. cbn [res_bind]. unfold Pandas.series_getitem.
    cbn [Pandas.labels Pandas.values]. rewrite Hp, Hs. cbn [res_bind cell_split].
    eexists. split; [reflexivity | ]. unfold Py.split.
    destruct (split_scan_pieces (py "; ") s 0 []) as (x & rest & ->). discriminate.
Qed.

Lemma keep_outside_members (labels cols : list cell) (x : cell) :
  x ∈ Frames.keep_outside labels cols cols -> (x ∉ labels) /\ (x ∈ cols).
Proof.
  assert (G : forall cols xs : list cell,
             x ∈ Frames.keep_outside labels cols xs ->
             exists k c, cols !! k = Some c /\ xs !! k = Some x /\ c ∉ labels).
  { clear cols. induction cols as [|c cols IH]; intros [|y xs] Hx; simpl in Hx;
      try (inversion Hx; fail).
    destruct (bool_decide (c ∈ labels)) eqn:Hc.
    - destruct (IH xs Hx) as (k & c' & Hk & Hxk & Hn). exists (S k), c'. auto.
    - apply bool_decide_eq_false in Hc.
      apply elem_of_cons in Hx as [->|Hx].
      + exists O, c. auto.
      + destruct (IH xs Hx) as (k & c' & Hk & Hxk & Hn). exists (S k), c'. auto. }
  intros Hx. destruct (G cols cols Hx) as (k & c & Hk & Hxk & Hn).
  rewrite Hk in Hxk. injection Hxk as ->.
  split; [exact Hn | ]. eapply list_elem_of_lookup_2. exact Hk.
Qed.

Lemma keep_outside_lookup (labels : list cell) (key : cell) :
  key ∉ labels ->
  forall (cols xs : list cell),
    match Pandas.position key (Frames.keep_outside labels cols cols) with
    | Some q => Frames.keep_outside labels cols xs !! q
    | None => None
    end
    = match Pandas.position key cols with
      | Some q => xs !! q
      | None => None
      end.
Proof.
  intros Hkey.
  assert (G : forall cols ys xs : list cell,
             length ys = length cols ->
             (forall k c, cols !! k = Some c -> ys !! k = Some c) ->
             match Pandas.position key (Frames.keep_outside labels cols ys) with
             | Some q => Frames.keep_outside labels cols xs !! q
             | None => None
             end
             = match Pandas.position key ys with
               | Some q => xs !! q
               | None => None
               end).
  { induction cols as [|c cols IH]; intros [|y ys] xs Hlen Hsame;
      simpl in Hlen; try discriminate; [reflexivity | ].
    assert (Hy : y = c).
    { specialize (Hsame O c eq_refl). simpl in Hsame. congruence. }
    subst y.
    assert (Hrest : forall k c', cols !! k = Some c' -> ys !! k = Some c').
    { intros k c' Hk. exact (Hsame (S k) c' Hk). }
    destruct xs as [|x xs].
    - simpl. destruct (bool_decide (c ∈ labels));
        destruct (Pandas.position key _); simpl;
        destruct (decide (c = key)); try reflexivity;
        destruct (Pandas.position key ys); reflexivity.
    - cbn [Frames.keep_outside Pandas.position].
      destruct (bool_decide (c ∈ labels)) eqn:Hc.
      + apply bool_decide_eq_true in Hc.
        destruct (decide (c = key)) as [->|Hne]; [contradiction | ].
        rewrite (IH ys xs) by (lia || exact Hrest).
        destruct (Pandas.position key ys); reflexivity.
      + cbn [Pandas.position]. destruct (decide (c = key)); [reflexivity | ].
        assert (Hlen' : length ys = length cols) by lia.
        specialize (IH ys xs Hlen' Hrest).
        destruct (Pandas.position key (Frames.keep_outside labels cols ys));
          destruct (Pandas.position key ys); simpl in *; exact IH. }
  intros cols xs. apply G; [reflexivity | auto].
Qed.

(** X15.  Dropping the ignored columns succeeds only when every one of them
    is a column of the table.  The result has the same row labels and none
    of the ignored columns; every other column, among them [cluster] and
    the numbered columns of the vector, holds the same cells as before. *)
Theorem data_vectors_keep (part kept : Pandas.Frame) :
  data_vectors part = Ok kept ->
  Pandas.index kept = Pandas.index part
  /\ (forall key, key ∈ columns_to_ignore ->
        key ∈ Pandas.columns part /\ key ∉ Pandas.columns kept)
  /\ (forall k key, key ∉ columns_to_ignore ->
        Pandas.cell_at kept k key = Pandas.cell_at part k key)
  /\ (forall k, Pandas.cell_at kept k (CStr (py "cluster"))
                = Pandas.cell_at part k (CStr (py "cluster")))
  /\ (forall k j, Pandas.cell_at kept k (CInt j) = Pandas.cell_at part k (CInt j)).
Proof.
  unfold data_vectors, Frames.drop. intros E.
  destruct (forallb _ columns_to_ignore) eqn:Hall; [ | discriminate ].
  injection E as <-.
  assert (Hcells : forall k key, key ∉ columns_to_ignore ->
             Pandas.cell_at
               {| Pandas.columns :=
                    Frames.keep_outside columns_to_ignore (Pandas.columns part)
                      (Pandas.columns part);
                  Pandas.rows :=
                    map (fun r => (fst r,
                                   Frames.keep_outside columns_to_ignore
                                     (Pandas.columns part) (snd r)))
                      (Pandas.rows part) |} k key
             = Pandas.cell_at part k key).
  { intros k key Hkey. unfold Pandas.cell_at. cbn [Pandas.rows Pandas.columns].
    change (map ?f ?l) with (f <$> l). rewrite list_lookup_fmap.
    destruct (Pandas.rows part !! k) as [r|]; cbn [fmap option_fmap option_map snd].
    - apply (keep_outside_lookup _ _ Hkey).
    - reflexivity. }
  split; [ | split; [ | split; [exact Hcells | split] ] ].
  - unfold Pandas.index. cbn [Pandas.rows]. rewrite map_map. reflexivity.
  - intros key Hkey. cbn [Pandas.columns]. split.
    + rewrite forallb_forall in Hall.
      eapply bool_decide_eq_true_1. apply Hall. apply list_elem_of_In. exact Hkey.
    + intros Hin. apply keep_outside_members in Hin as [Hn _]. contradiction.
  - intros k. apply Hcells. vm_compute. intros Hin.
    repeat (apply elem_of_cons in Hin as [Hin|Hin]; [discriminate | ]).
    inversion Hin.
  - intros k j. apply Hcells. unfold columns_to_ignore. intros Hin.
    apply list_elem_of_In, in_map_iff in Hin as (x & Hx & _). discriminate.
Qed.

End Tables.

(** ** More runs *)
Section MoreRuns.
Import Demo.

Lemma split_join_round_trip_witness :
  Py.split (py "b1.json; b2.json") (py "; ") <> []
  /\ str_join (py "; ") (Py.split (py "b1.json; b2.json") (py "; "))
     = py "b1.json; b2.json".
Proof. apply split_join_round_trip. discriminate. Defined.

Lemma a_json_free : free_of (py "; ") (py "a.json").
Proof. intros k. do 7 (destruct k as [|k]; [reflexivity | ]). reflexivity. Qed.

Lemma split_without_separator_witness :
  Py.split (py "a.json") (py "; ") = [py "a.json"].
Proof. apply split_without_separator. exact a_json_free. Defined.

Lemma preview_path_is_parsed_path_witness :
  exists path,
    preview_filepath 0 = Ok path
    /\ path = covid_dirpath ++ py "/" ++ py "a.json"
    /\ filenames_of 0 = Ok [py "a.json"]
    /\ forall st : State World,
         exists evs,
           log (snd (parse_document 0 st)) = log st ++ EvOpen path :: evs
           /\ Forall (fun ev => ev = EvOpen path \/ ev = EvMountStart) evs.
Proof.
  assert (Hrow : Pandas.iloc metadata_with_docs 0
                 = Ok {| Pandas.name := CInt 0;
                         Pandas.labels := Pandas.columns metadata_with_docs;
                         Pandas.values := [CStr (py "ug7v899j"); CStr (py "Paper A");
                                           CStr (py "a.json")] |})
    by reflexivity.
  apply (preview_path_is_parsed_path 0 _ (py "a.json") Hrow).
  - reflexivity.
  - exact a_json_free.
  - reflexivity.
  - discriminate.
  - reflexivity.
Defined.

Lemma parse_document_out_of_range_witness :
  parse_document 3 (start true) = (Raise IndexError, start true)
  /\ parse_document (-4) (start true) = (Raise IndexError, start true).
Proof.
  split; apply parse_document_out_of_range.
  - right. vm_compute. discriminate.
  - left. vm_compute. reflexivity.
Defined.

Lemma parse_document_negative_index_witness :
  parse_document (-1) (start true)
  = parse_document (-1 + Z.of_nat (length (Pandas.rows metadata_with_docs))) (start true).
Proof.
  apply parse_document_negative_index.
  split; [vm_compute; discriminate | reflexivity].
Defined.

Lemma parse_document_words_in_order_witness :
  exists filenames datas toks,
    filenames_of 1 = Ok filenames
    /\ Forall2 read_as filenames datas
    /\ Forall2 (fun data t => data_tokens data = Ok t) datas toks
    /\ [py "spread"; py "virus"; py "other"; py "spread"; py "topic"] = concat toks.
Proof.
  apply (parse_document_words_in_order 1 (start true) _ (CStr (py "02tnwd4m"))
           (snd (parse_document 1 (start true)))).
  vm_compute. reflexivity.
Defined.

Lemma yielded_ids_prefix_witness :
  exists s s', parse_document 3 s = (Raise IndexError, s').
Proof.
  let v := eval vm_compute in
    (yielded iter_next (generator_of {| n_documents := 5 |}) (start true)) in
  match v with
  | (?docs, ?ending, ?st') =>
      assert (E : yielded iter_next (generator_of {| n_documents := 5 |}) (start true)
                  = (docs, ending, st'))
        by (vm_compute; reflexivity);
      destruct (yielded_ids_prefix 5 _ _ _ _ E) as (_ & _ & Hbad);
      destruct (Hbad IndexError eq_refl) as (_ & Hnext)
  end.
  exact Hnext.
Defined.

Lemma infer_all_requests_witness :
  exists evs items,
    Forall2 parsed (Py.range 0 3) items
    /\ inference_requests evs = map (fun item => EvInfer (fst item)) items
    /\ map snd items
       = [CStr (py "ug7v899j"); CStr (py "02tnwd4m"); CStr (py "ejv2xln0")]
    /\ length items = 3%nat.
Proof.
  let v := eval vm_compute in (infer_all (2 : Z) 3 (start true)) in
  match v with
  | (Ok (?vs, ?ids), ?st') =>
      assert (E : infer_all (2 : Z) 3 (start true) = (Ok (vs, ids), st'))
        by (vm_compute; reflexivity);
      destruct (infer_all_requests (2 : Z) 3 _ _ _ _ E)
        as (evs & items & _ & HP & I & HI & S & L)
  end.
  exists evs, items. auto.
Defined.

Lemma model_filename_inj_witness : (500 : Z) = 500.
Proof. apply model_filename_inj. reflexivity. Defined.

Lemma attach_clusters_twice_witness :
  exists s1,
    Namespace.attach_clusters [4; 11] store = Ok s1
    /\ Namespace.attach_clusters [4; 11] s1 = Ok s1.
Proof.
  assert (Hvar : Namespace.vars store !! "metadata_with_embeddings" = Some 1%positive)
    by (vm_compute; reflexivity).
  assert (Hobj : Namespace.heap store !! 1%positive = Some two_rows)
    by (vm_compute; reflexivity).
  assert (Hwf : well_formed two_rows) by (repeat constructor).
  apply (attach_clusters_twice [4; 11] store 1%positive two_rows Hvar Hobj Hwf).
  reflexivity.
Defined.


Lemma with_docs_have_files_witness :
  exists filtered,
    Frames.with_docs Samples.metadata = Ok filtered
    /\ Pandas.index filtered = [CInt 0; CInt 2; CInt 4]
    /\ exists filenames,
         @filenames_of {| metadata_with_docs := filtered; covid_dirpath := py "/mnt" |} 1
         = Ok filenames
         /\ filenames <> [].
Proof.
  let v := eval vm_compute in (Frames.with_docs Samples.metadata) in
  match v with
  | Ok ?filtered =>
      assert (E : Frames.with_docs Samples.metadata = Ok filtered)
        by (vm_compute; reflexivity);
      exists filtered; split; [exact E | split; [reflexivity | ] ];
      refine (proj2 (proj2 (proj2
                (with_docs_have_files Samples.metadata filtered (py "/mnt") E _))) 1 _)
  end.
  - intros r p c Hin Hp Hc. vm_compute in Hp. injection Hp as <-.
    repeat (apply elem_of_cons in Hin as [->|Hin];
            [simpl in Hc; injection Hc as <-; eauto | ]).
    inversion Hin.
  - split; [discriminate | reflexivity].
Defined.

Lemma data_vectors_keep_witness :
  exists kept,
    data_vectors Samples.labelled = Ok kept
    /\ Pandas.columns kept = [CInt 0; CInt 1; CStr (py "cluster")]
    /\ Pandas.cell_at kept 1 (CStr (py "cluster"))
       = Pandas.cell_at Samples.labelled 1 (CStr (py "cluster")).
Proof.
  let v := eval vm_compute in (data_vectors Samples.labelled) in
  match v with
  | Ok ?kept =>
      assert (E : data_vectors Samples.labelled = Ok kept)
        by (vm_compute; reflexivity);
      exists kept; split; [exact E | split; [reflexivity | ] ];
      destruct (data_vectors_keep Samples.labelled kept E) as (_ & _ & _ & Hc & _);
      exact (Hc 1%nat)
  end.
Defined.

End MoreRuns.

Section FaultyRuns.
Import Faulty.

Lemma read_file_to_json_other_error_witness :
  read_file_to_json (py "x.json") start
  = (Raise JSONDecodeError,
     {| world := world start; log := log start ++ [EvOpen (py "x.json")] |}).
Proof.
  apply read_file_to_json_other_error; [reflexivity | discriminate].
Defined.

Lemma read_file_to_json_restart_fails_witness :
  read_file_to_json (py "gone.json") start
  = (Raise (OtherError 1),
     {| world := {| restarts := 1 |};
        log := log start ++ [EvOpen (py "gone.json"); EvMountStart] |}).
Proof.
  apply (read_file_to_json_restart_fails (py "gone.json") start (OtherError 1)
           (world start)); reflexivity.
Defined.

Lemma cluster_documents_no_elbow_witness :
  cluster_documents Demo.twenty_vectors start
  = (Raise TypeError, {| world := world start; log := log start ++ [EvElbow 3 20] |}).
Proof. apply cluster_documents_no_elbow. reflexivity. Defined.

End FaultyRuns.
